(** * Table extraction and reconciliation pipeline of the OCR converter

    A shallow embedding of [table_extractors.py] (backend adapters,
    compatibility probes, backend selection, [combine_tables],
    [extract_all_tables], [export_tables_to_csv]), of the table-consuming
    part of [enhanced_ocr.py] ([pdf_to_docx]), of the tables of
    [docx_styler.py] and of [allowed_file] of [app.py].

    Third-party libraries (PyMuPDF, Camelot, Tabula, pandas, numpy,
    python-docx) are not part of the program: what they answer for a given
    document, a failure included, is supplied by a [World] record, and the
    small pieces of pandas and PyMuPDF semantics the program relies on are
    written out in the modules [Pandas] and [Fitz]. *)

From Stdlib Require Import Ascii String QArith.
From stdpp Require Import base decidable option list sets gmap strings pretty
  sorting.

Local Open Scope string_scope.
Local Open Scope list_scope.

(** ** Python exceptions as an error monad *)

Inductive exn : Type :=
  | ImportError
  | IndexError
  | AttributeError
  | KeyError
  | OtherError (msg : string).

Inductive exc (A : Type) : Type :=
  | Ok (a : A)
  | Raise (e : exn).
Arguments Ok {A} a.
Arguments Raise {A} e.

(** Sequencing: an exception raised by [c] ends the computation. *)
Definition bind {A B} (c : exc A) (f : A → exc B) : exc B :=
  match c with
  | Ok a => f a
  | Raise e => Raise e
  end.

Notation "'do' x <- c ; k" := (bind c (λ x, k))
  (at level 10, x name, c at level 100, k at level 200,
   format "'[v' 'do'  x  <-  c ; '/' k ']'").

(** [try: c  except: h] and [except Exception as e: h]; the model has no
    exception outside [Exception], so both handlers catch everything. *)
Definition try_except {A} (c : exc A) (h : exn → exc A) : exc A :=
  match c with
  | Ok a => Ok a
  | Raise e => h e
  end.

(** [try: c  except ImportError: h]: any other exception passes through. *)
Definition try_except_ImportError {A} (c : exc A) (h : exc A) : exc A :=
  match c with
  | Ok a => Ok a
  | Raise ImportError => h
  | Raise e => Raise e
  end.

Definition raises {A} (c : exc A) : Prop := ∃ e, c = Raise e.

(** A [for] loop whose body may raise, threading the loop state. *)
Fixpoint for_each {A S} (body : S → A → exc S) (l : list A) (s : S) : exc S :=
  match l with
  | [] => Ok s
  | a :: l' => do s' <- body s a; for_each body l' s'
  end.

(** A list comprehension [[e for e in l if p(e)]] whose test may raise. *)
Fixpoint filter_exc {A} (p : A → exc bool) (l : list A) : exc (list A) :=
  match l with
  | [] => Ok []
  | a :: l' =>
      do b <- p a;
      do r <- filter_exc p l';
      Ok (if b : bool then a :: r else r)
  end.

(** A statement repeated over a list, collecting what each run returns;
    the first exception ends it. *)
Fixpoint map_exc {A B} (f : A → exc B) (l : list A) : exc (list B) :=
  match l with
  | [] => Ok []
  | a :: l' =>
      do b <- f a;
      do r <- map_exc f l';
      Ok (b :: r)
  end.

(** The text of a page is a Python [str]: a sequence of code points.
    [str.strip()] removes the white space of Unicode at both ends: the
    controls 9..13 and 28..31, the space, U+0085, U+00A0, U+1680,
    U+2000..U+200A, U+2028, U+2029, U+202F, U+205F and U+3000. *)
Definition is_space (c : N) : bool :=
  ((9 <=? c) && (c <=? 13) || (28 <=? c) && (c <=? 32)
   || (c =? 133) || (c =? 160) || (c =? 5760)
   || (8192 <=? c) && (c <=? 8202)
   || (c =? 8232) || (c =? 8233) || (c =? 8239) || (c =? 8287)
   || (c =? 12288))%N.

Fixpoint lstrip (s : list N) : list N :=
  match s with
  | [] => []
  | c :: s' => if is_space c then lstrip s' else s
  end.

Definition strip (s : list N) : list N :=
  reverse (lstrip (reverse (lstrip s))).

(** ** pandas: the part of [DataFrame] the program uses *)

Module Pandas.

(** A cell value: [None], [NaN], text or an integer (the labels of a
    default [RangeIndex]). *)
Inductive value : Type :=
  | VNone
  | VNaN
  | VStr (s : string)
  | VInt (z : Z).

#[global] Instance value_eq_dec : EqDecision value.
Proof. solve_decision. Defined.

(** [pd.isna]: true for the missing values only; the empty string is a
    value. *)
Definition isna (v : value) : bool :=
  match v with
  | VNone | VNaN => true
  | _ => false
  end.

Record DataFrame : Type := mkDataFrame {
  columns : list value;
  values : list (list value);
  attrs : gmap string Z
}.

Definition shape (df : DataFrame) : nat * nat :=
  (length (values df), length (columns df)).

(** [df.empty]: some axis has length 0. *)
Definition empty (df : DataFrame) : bool :=
  Nat.eqb (shape df).1 0 || Nat.eqb (shape df).2 0.

(** [pd.DataFrame(rows)] for a list of lists: a default integer column
    index as wide as the longest row, short rows padded with [None].
    Cells are kept as they are read, as pandas 2 does; pandas 3 stores a
    [None] next to strings as [NaN]. [isna] is true of both, and nothing
    proved below looks at a frame built here from a missing value. *)
Definition pad (n : nat) (row : list value) : list value :=
  row ++ replicate (n - length row) VNone.

Definition from_rows (rows : list (list value)) : DataFrame :=
  let ncols := foldr (λ r m, Nat.max (length r) m) 0%nat rows in
  {| columns := (λ i, VInt (Z.of_nat i)) <$> seq 0 ncols;
     values := pad ncols <$> rows;
     attrs := ∅ |}.

(** [df.iloc[0]] as the list of its values. *)
Definition iloc0 (df : DataFrame) : list value :=
  match values df with
  | r :: _ => r
  | [] => []
  end.

(** [df.iloc[1:]] *)
Definition iloc_from1 (df : DataFrame) : DataFrame :=
  {| columns := columns df; values := tail (values df); attrs := attrs df |}.

(** [df.columns = labels] *)
Definition set_columns (labels : list value) (df : DataFrame) : DataFrame :=
  {| columns := labels; values := values df; attrs := attrs df |}.

(** [df.iloc[:r, :c]] *)
Definition iloc_block (r c : nat) (df : DataFrame) : DataFrame :=
  {| columns := take c (columns df);
     values := take c <$> take r (values df);
     attrs := attrs df |}.

(** [df.values.flatten()]: row-major. *)
Definition flatten (df : DataFrame) : list value := concat (values df).

(** [df.attrs = d] *)
Definition set_attrs (d : gmap string Z) (df : DataFrame) : DataFrame :=
  {| columns := columns df; values := values df; attrs := d |}.

End Pandas.

(** ** PyMuPDF: rectangles, text blocks, detected tables, pages *)

Module Fitz.

Record Rect : Type := mkRect { x0 : Q; y0 : Q; x1 : Q; y1 : Q }.

Definition qmax (a b : Q) : Q := if Qle_bool a b then b else a.
Definition qmin (a b : Q) : Q := if Qle_bool a b then a else b.

(** [Rect.is_empty]: no positive area. *)
Definition is_empty (r : Rect) : bool :=
  Qle_bool (x1 r) (x0 r) || Qle_bool (y1 r) (y0 r).

(** [Rect.is_infinite]: the library's distinguished infinite rectangle. *)
Definition is_infinite (r : Rect) : bool :=
  Qeq_bool (x0 r) (-2147483648) && Qeq_bool (y0 r) (-2147483648)
  && Qeq_bool (x1 r) 2147483520 && Qeq_bool (y1 r) 2147483520.

Definition intersect (r r1 : Rect) : Rect :=
  {| x0 := qmax (x0 r) (x0 r1); y0 := qmax (y0 r) (y0 r1);
     x1 := qmin (x1 r) (x1 r1); y1 := qmin (y1 r) (y1 r1) |}.

(** [Rect.intersects]: false as soon as one rectangle is empty or
    infinite, else whether the common part has positive area. *)
Definition intersects (r r1 : Rect) : bool :=
  if is_empty r || is_infinite r || is_empty r1 || is_infinite r1
  then false
  else negb (is_empty (intersect r r1)).

(** An entry of [page.get_text("blocks")]:
    [(x0, y0, x1, y1, text, block_no, block_type)]. *)
Record Block : Type := mkBlock {
  b_x0 : Q; b_y0 : Q; b_x1 : Q; b_y1 : Q;
  b_text : string;
  b_no : nat;
  b_type : nat
}.

(** [fitz.Rect(block[:4])] *)
Definition block_rect (b : Block) : Rect :=
  {| x0 := b_x0 b; y0 := b_y0 b; x1 := b_x1 b; y1 := b_y1 b |}.

Record Cell : Type := mkCell { text : Pandas.value }.

(** A table found on a page. The program reads [row_count], which the
    library's table objects have, and [rect], [column_count] and
    [extract_cell(i, j)], which they need not have: reading an attribute
    that is missing raises [AttributeError]. [extract_cell i j] answers
    [None] where there is no cell object. *)
Record Table : Type := mkTable {
  rect : exc Rect;
  row_count : nat;
  column_count : exc nat;
  extract_cell : nat → nat → exc (option Cell)
}.

Record Page : Type := mkPage {
  get_text : list N;
  get_text_blocks : list Block;
  find_tables : list Table
}.

(** An opened document; [len(doc)] is its number of pages. *)
Abbreviation Document := (list Page).

(** [doc[i]]: [IndexError] from the page count on; a negative index
    counts from the end, the page count being added until it is no
    longer negative (which never ends on a document without pages:
    modelled as an error). *)
Definition getitem (doc : Document) (i : Z) : exc Page :=
  let n := Z.of_nat (length doc) in
  if (n <=? i)%Z then Raise IndexError
  else if (n =? 0)%Z then Raise (OtherError "no pages")
  else match doc !! Z.to_nat (i `mod` n) with
       | Some p => Ok p
       | None => Raise IndexError
       end.

End Fitz.

(** ** The environment: what the libraries answer *)

Inductive flavor : Type := Lattice | Stream.

(** A Camelot table: its frame and its accuracy score. *)
Record CamelotTable : Type := mkCamelotTable {
  df : Pandas.DataFrame;
  accuracy : Q
}.

Record World : Type := mkWorld {
  (** [fitz.open(pdf_path)] *)
  fitz_open : string → exc Fitz.Document;
  (** [camelot.read_pdf(pdf_path, pages=..., flavor=...)] *)
  camelot_read_pdf : string → string → flavor → exc (list CamelotTable);
  (** [tabula.read_pdf(pdf_path, pages=..., lattice=True | stream=True,
      multiple_tables=True)] *)
  tabula_read_pdf : string → Z → flavor → exc (list Pandas.DataFrame);
  (** [import m]: [ImportError] when the module is not found, or
      whatever exception the module raises while it is initialised *)
  import_module : string → exc unit;
  (** [subprocess.check_output(argv, stderr=subprocess.STDOUT)] *)
  check_output : list string → exc string;
  (** numpy's [str] of a flat array *)
  np_str : list Pandas.value → string;
  (** the table styles of the template of a new Word document *)
  docx_styles : string → bool
}.

(** [import m] *)
Definition py_import (w : World) (m : string) : exc unit := import_module w m.

(** ** table_extractors.py *)

(** The three subclasses of [TableExtractor]. *)
Inductive Extractor : Type :=
  | PyMuPDFTableExtractor
  | CamelotTableExtractor
  | TabulaTableExtractor.

#[global] Instance Extractor_eq_dec : EqDecision Extractor.
Proof. solve_decision. Defined.

(** One row of the grid read off a detected table: [table.column_count]
    is read for every row, each cell is [cell.text if cell else ""]. *)
Definition pymupdf_row (t : Fitz.Table) (i : nat) : exc (list Pandas.value) :=
  do column_count <- Fitz.column_count t;
  map_exc (λ j, do cell <- Fitz.extract_cell t i j;
                Ok (match cell with
                    | Some cell => Fitz.text cell
                    | None => Pandas.VStr ""
                    end))
    (seq 0 column_count).

Definition pymupdf_rows (t : Fitz.Table) : exc (list (list Pandas.value)) :=
  map_exc (pymupdf_row t) (seq 0 (Fitz.row_count t)).

(** [not df.empty and not df.iloc[0].isna().all()] *)
Definition first_row_is_header (d : Pandas.DataFrame) : bool :=
  negb (Pandas.empty d) && negb (forallb Pandas.isna (Pandas.iloc0 d)).

(** The frame built from the rows: the first row becomes the column
    labels and leaves the data when the test above holds. *)
Definition pymupdf_frame (rows : list (list Pandas.value)) : Pandas.DataFrame :=
  let d := Pandas.from_rows rows in
  if first_row_is_header d
  then Pandas.iloc_from1 (Pandas.set_columns (Pandas.iloc0 d) d)
  else d.

(** One iteration of [for table in tables]: nothing is appended when
    [rows] is empty. *)
Definition pymupdf_table (t : Fitz.Table) : exc (option Pandas.DataFrame) :=
  do rows <- pymupdf_rows t;
  Ok (match rows with
      | [] => None
      | _ => Some (pymupdf_frame rows)
      end).

Definition pymupdf_extract_tables (w : World) (pdf_path : string) (page_num : Z)
  : exc (list Pandas.DataFrame) :=
  do doc <- fitz_open w pdf_path;
  do page <- Fitz.getitem doc page_num;
  do frames <- map_exc pymupdf_table (Fitz.find_tables page);
  Ok (omap id frames).

Definition Qltb (a b : Q) : bool := negb (Qle_bool b a).

Definition camelot_extract_tables (w : World) (pdf_path : string) (page_num : Z)
  : exc (list Pandas.DataFrame) :=
  try_except
    (do tables <- camelot_read_pdf w pdf_path (pretty (page_num + 1)%Z) Lattice;
     do tables <-
       ((if match tables with
           | [] => true
           | t0 :: _ => Qltb (accuracy t0) 80
           end
        then
          do stream_tables <- camelot_read_pdf w pdf_path (pretty (page_num + 1)%Z) Stream;
          Ok (match stream_tables, tables with
              | [], _ => tables
              | _ :: _, [] => stream_tables
              | s0 :: _, t0 :: _ =>
                  if Qltb (accuracy t0) (accuracy s0) then stream_tables else tables
              end)
        else Ok tables) : exc (list CamelotTable));
     Ok (df <$> tables))
    (λ e, Ok []).

Definition tabula_extract_tables (w : World) (pdf_path : string) (page_num : Z)
  : exc (list Pandas.DataFrame) :=
  try_except
    (do tables <- tabula_read_pdf w pdf_path (page_num + 1)%Z Lattice;
     match tables with
     | [] => tabula_read_pdf w pdf_path (page_num + 1)%Z Stream
     | _ => Ok tables
     end)
    (λ e, Ok []).

Definition extract_tables (w : World) (e : Extractor) (pdf_path : string)
    (page_num : Z) : exc (list Pandas.DataFrame) :=
  match e with
  | PyMuPDFTableExtractor => pymupdf_extract_tables w pdf_path page_num
  | CamelotTableExtractor => camelot_extract_tables w pdf_path page_num
  | TabulaTableExtractor => tabula_extract_tables w pdf_path page_num
  end.

(** [CamelotTableExtractor.is_compatible] *)
Definition camelot_is_compatible (w : World) (pdf_path : string) : exc bool :=
  try_except
    (do doc <- fitz_open w pdf_path;
     do page <- Fitz.getitem doc 0;
     let text := Fitz.get_text page in
     Ok (Nat.ltb 0 (length (strip text))))
    (λ e, Ok false).

(** [TabulaTableExtractor.is_compatible] *)
Definition tabula_is_compatible (w : World) (pdf_path : string) : exc bool :=
  try_except_ImportError
    (do _u <- py_import w "jpype"; Ok true)
    (try_except
       (do _o <- check_output w ["java"; "-version"]; Ok true)
       (λ e, Ok false)).

(** [is_compatible]; the PyMuPDF adapter inherits the base class's
    [return True]. *)
Definition is_compatible (w : World) (e : Extractor) (pdf_path : string) : exc bool :=
  match e with
  | PyMuPDFTableExtractor => Ok true
  | CamelotTableExtractor => camelot_is_compatible w pdf_path
  | TabulaTableExtractor => tabula_is_compatible w pdf_path
  end.

(** [TableExtractorFactory.create_extractors] *)
Definition create_extractors : list Extractor :=
  [PyMuPDFTableExtractor; CamelotTableExtractor; TabulaTableExtractor].

(** The part of [get_best_extractor] after the compatible extractors are
    known. *)
Definition pick_extractor (compatible_extractors : list Extractor) : Extractor :=
  match compatible_extractors with
  | [] => PyMuPDFTableExtractor
  | first :: _ =>
      match list_find (λ e, e = CamelotTableExtractor) compatible_extractors with
      | Some (_, e) => e
      | None =>
          match list_find (λ e, e = TabulaTableExtractor) compatible_extractors with
          | Some (_, e) => e
          | None => first
          end
      end
  end.

(** [TableExtractorFactory.get_best_extractor] *)
Definition get_best_extractor (w : World) (pdf_path : string) : exc Extractor :=
  do compatible_extractors <-
    filter_exc (λ e, is_compatible w e pdf_path) create_extractors;
  Ok (pick_extractor compatible_extractors).

(** [shape_sig], [data_sig] and [signature] of [combine_tables]. *)
Definition shape_sig (table : Pandas.DataFrame) : string :=
  pretty (Pandas.shape table).1 +:+ "x" +:+ pretty (Pandas.shape table).2.

Definition sample (table : Pandas.DataFrame) : Pandas.DataFrame :=
  let sample_rows := Nat.min 3 (Pandas.shape table).1 in
  let sample_cols := Nat.min 3 (Pandas.shape table).2 in
  Pandas.iloc_block sample_rows sample_cols table.

Definition data_sig (w : World) (table : Pandas.DataFrame) : string :=
  np_str w (Pandas.flatten (sample table)).

Definition signature (w : World) (table : Pandas.DataFrame) : string :=
  shape_sig table +:+ ":" +:+ data_sig w table.

(** One iteration of the deduplication loop on the state
    [(unique_tables, table_signatures)]. *)
Definition combine_step (w : World)
    (st : list Pandas.DataFrame * gset string) (table : Pandas.DataFrame)
  : list Pandas.DataFrame * gset string :=
  if Pandas.empty table then st
  else
    let sg := signature w table in
    if decide (sg ∈ st.2) then st
    else (st.1 ++ [table], {[sg]} ∪ st.2).

(** [combine_tables] *)
Definition combine_tables (w : World) (all_tables : list (list Pandas.DataFrame))
  : list Pandas.DataFrame :=
  match all_tables with
  | [] => []
  | _ =>
      let tables :=
        filter (λ table, Pandas.empty table = false) (concat all_tables) in
      (foldl (combine_step w) ([], ∅) tables).1
  end.

(** A list is true in a condition when it is not empty. *)
Definition truthy {A} (l : list A) : bool :=
  match l with
  | [] => false
  | _ => true
  end.

(** One iteration of the loop that tries all extractors. *)
Definition try_extractor (w : World) (pdf_path : string) (page_num : Z)
    (page_tables : list (list Pandas.DataFrame)) (extractor : Extractor)
  : exc (list (list Pandas.DataFrame)) :=
  do c <- is_compatible w extractor pdf_path;
  if c : bool then
    do tables <- extract_tables w extractor pdf_path page_num;
    Ok (if truthy tables then page_tables ++ [tables] else page_tables)
  else Ok page_tables.

(** The body of the page loop of [extract_all_tables] up to the call of
    [combine_tables]: the lists collected in [page_tables]. *)
Definition collect_page_tables (w : World) (pdf_path : string) (page_num : Z)
  : exc (list (list Pandas.DataFrame)) :=
  do extractor <- get_best_extractor w pdf_path;
  do tables <- extract_tables w extractor pdf_path page_num;
  let page_tables := if truthy tables then [tables] else [] in
  if negb (truthy tables)
  then for_each (try_extractor w pdf_path page_num) create_extractors page_tables
  else Ok page_tables.

(** The body of the page loop of [extract_all_tables]. *)
Definition extract_page (w : World) (pdf_path : string) (doc : Fitz.Document)
    (all_tables : list Pandas.DataFrame) (page_num : Z)
  : exc (list Pandas.DataFrame) :=
  if (Z.of_nat (length doc) <=? page_num)%Z then Ok all_tables
  else
    do page_tables <- collect_page_tables w pdf_path page_num;
    let unique_tables := combine_tables w page_tables in
    Ok (all_tables
        ++ (Pandas.set_attrs {[ "page" := page_num ]} <$> unique_tables)).

(** [if page_nums is None: page_nums = range(len(doc))] *)
Definition requested_pages (doc : Fitz.Document) (page_nums : option (list Z))
  : list Z :=
  match page_nums with
  | None => Z.of_nat <$> seq 0 (length doc)
  | Some l => l
  end.

(** [extract_all_tables] *)
Definition extract_all_tables (w : World) (pdf_path : string)
    (page_nums : option (list Z)) : exc (list Pandas.DataFrame) :=
  do doc <- fitz_open w pdf_path;
  for_each (extract_page w pdf_path doc) (requested_pages doc page_nums) [].

(** ** docx_styler.py: tables *)

(** [str(cell_text)] *)
Definition py_str (v : Pandas.value) : string :=
  match v with
  | Pandas.VNone => "None"
  | Pandas.VNaN => "nan"
  | Pandas.VStr s => s
  | Pandas.VInt z => pretty z
  end.

(** A cell of a Word table: its text, and whether it got the header
    styling (bold runs, grey shading). *)
Record DocxCell : Type := mkDocxCell {
  cell_text : string;
  cell_header : bool
}.

(** The cells written from the values of one row. *)
Definition docx_cells (header : bool) (row_data : list Pandas.value)
  : list DocxCell :=
  (λ v, {| cell_text := py_str v; cell_header := header |}) <$> row_data.

(** Filling one row of a table of [num_cols] columns: [row.cells[j]]
    raises [IndexError] past the last column, cells that are not reached
    stay empty. *)
Definition fill_row (num_cols : nat) (header : bool)
    (row_data : list Pandas.value) : exc (list DocxCell) :=
  if Nat.ltb num_cols (length row_data) then Raise IndexError
  else Ok (docx_cells header row_data
           ++ replicate (num_cols - length row_data)
                {| cell_text := ""; cell_header := false |}).

Fixpoint fill_rows (num_cols : nat) (has_header : bool) (i : nat)
    (data : list (list Pandas.value)) : exc (list (list DocxCell)) :=
  match data with
  | [] => Ok []
  | row_data :: data' =>
      do row <- fill_row num_cols (has_header && Nat.eqb i 0) row_data;
      do rows <- fill_rows num_cols has_header (S i) data';
      Ok (row :: rows)
  end.

(** The cells of [DocxStyler.add_styled_table] (lines 51-59 and 66-85):
    [None] when no table is added. The style, line 63, is [set_table_style]
    below. *)
Definition add_styled_table (data : list (list Pandas.value)) (has_header : bool)
  : exc (option (list (list DocxCell))) :=
  match data with
  | [] => Ok None
  | row0 :: _ =>
      let num_cols := length row0 in
      if Nat.eqb num_cols 0 then Ok None
      else
        do rows <- fill_rows num_cols has_header 0 data;
        Ok (Some rows)
  end.

(** The cells of [DocxStyler.add_table_from_dataframe]. *)
Definition add_table_from_dataframe (d : Pandas.DataFrame) (has_header : bool)
  : exc (option (list (list DocxCell))) :=
  let data :=
    if has_header then Pandas.columns d :: Pandas.values d
    else Pandas.values d in
  add_styled_table data has_header.

(** [table.style = style]: python-docx looks the name up among the styles
    of the document and raises [KeyError] when there is none. *)
Definition set_table_style (w : World) (style : string) : exc unit :=
  if docx_styles w style then Ok () else Raise KeyError.

(** [DocxStyler.add_styled_table(data, style, has_header)], the style
    included: nothing is looked up when no table is created; else the
    style is set on the new table before its cells are filled. *)
Definition DocxStyler_add_styled_table (w : World)
    (data : list (list Pandas.value)) (style : string) (has_header : bool)
  : exc (option (list (list DocxCell))) :=
  match data with
  | [] => Ok None
  | row0 :: _ =>
      let num_cols := length row0 in
      if Nat.eqb num_cols 0 then Ok None
      else
        do _u <- set_table_style w style;
        do rows <- fill_rows num_cols has_header 0 data;
        Ok (Some rows)
  end.

(** [DocxStyler.add_table_from_dataframe(df, style, has_header)] *)
Definition DocxStyler_add_table_from_dataframe (w : World)
    (d : Pandas.DataFrame) (style : string) (has_header : bool)
  : exc (option (list (list DocxCell))) :=
  let data :=
    if has_header then Pandas.columns d :: Pandas.values d
    else Pandas.values d in
  DocxStyler_add_styled_table w data style has_header.

(** ** enhanced_ocr.py: [pdf_to_docx] *)

(** What the styler has added to the document, in order: a heading, a
    paragraph of one run, a table with its cells and its style, a page
    break. *)
Inductive DocOp : Type :=
  | Heading (text : string) (level : nat)
  | Paragraph (text : string) (bold : bool) (size : option nat)
  | TableOp (rows : list (list DocxCell)) (style : string)
  | PageBreak.

(** [get_table_style_name] *)
Definition get_table_style_name (style_option : string) : string :=
  if decide (style_option = "basic") then "Table Normal"
  else if decide (style_option = "grid") then "Table Grid"
  else if decide (style_option = "light") then "Light List"
  else if decide (style_option = "fancy") then "Medium Shading 1 Accent 1"
  else "Table Grid".

(** [blocks.sort(key=lambda b: b[1])]: a stable sort on the top
    coordinate. *)
Fixpoint insert_block (b : Fitz.Block) (l : list Fitz.Block) : list Fitz.Block :=
  match l with
  | [] => [b]
  | c :: l' =>
      if Qltb (Fitz.b_y0 c) (Fitz.b_y0 b) then c :: insert_block b l'
      else b :: c :: l'
  end.

Definition sort_blocks (blocks : list Fitz.Block) : list Fitz.Block :=
  foldr insert_block [] blocks.

(** [any(block_rect.intersects(table_pos) for table_pos in table_positions)] *)
Definition overlaps_table (table_positions : list Fitz.Rect) (block : Fitz.Block)
  : bool :=
  existsb (Fitz.intersects (Fitz.block_rect block)) table_positions.

(** The tables of [with_tables] tagged with this page. *)
Definition tables_of_page (with_tables : option (list Pandas.DataFrame))
    (page_num : nat) : list Pandas.DataFrame :=
  match with_tables with
  | None | Some [] => []
  | Some l =>
      filter (λ table, Pandas.attrs table !! "page" = Some (Z.of_nat page_num)) l
  end.

(** [table_positions]: [table.rect] of every detected table; a table
    object without that attribute ends the conversion. *)
Definition table_positions (page : Fitz.Page) : exc (list Fitz.Rect) :=
  map_exc Fitz.rect (Fitz.find_tables page).

(** The blocks written as free text on a page that has tables. *)
Definition kept_blocks (page : Fitz.Page) : exc (list Fitz.Block) :=
  let blocks := sort_blocks (Fitz.get_text_blocks page) in
  do table_positions <- table_positions page;
  Ok (filter (λ block, overlaps_table table_positions block = false) blocks).

(** One iteration of [for table in page_tables]: the small heading, the
    table when the styler adds one, the empty paragraph. *)
Definition write_table (w : World) (table_style : string)
    (table : Pandas.DataFrame) : exc (list DocOp) :=
  let style_name := get_table_style_name table_style in
  do added <- DocxStyler_add_table_from_dataframe w table style_name true;
  Ok ([Paragraph "Table" true (Some 12%nat)]
      ++ match added with
         | Some rows => [TableOp rows style_name]
         | None => []
         end
      ++ [Paragraph "" false None]).

(** The body of the page loop of [pdf_to_docx]. *)
Definition page_to_docx (w : World) (n_pages : nat) (page_num : nat)
    (page : Fitz.Page) (with_tables : option (list Pandas.DataFrame))
    (table_style : string) : exc (list DocOp) :=
  let page_tables := tables_of_page with_tables page_num in
  do body <-
    (if truthy page_tables
     then
       do kept <- kept_blocks page;
       do tables <- map_exc (write_table w table_style) page_tables;
       Ok (((λ block, Paragraph (Fitz.b_text block) false None) <$> kept)
           ++ concat tables)
     else
       Ok ((λ block, Paragraph (Fitz.b_text block) false None)
           <$> sort_blocks (Fitz.get_text_blocks page)));
  Ok ([Heading ("Page " +:+ pretty (page_num + 1)%nat) 1]
      ++ body
      ++ (if Nat.ltb page_num (n_pages - 1) then [PageBreak] else [])).

(** [for page_num in range(len(pdf))], from [page_num] on. *)
Fixpoint pages_to_docx (w : World) (n_pages : nat) (page_num : nat)
    (pages : list Fitz.Page) (with_tables : option (list Pandas.DataFrame))
    (table_style : string) : exc (list DocOp) :=
  match pages with
  | [] => Ok []
  | page :: pages' =>
      do ops <- page_to_docx w n_pages page_num page with_tables table_style;
      do rest <- pages_to_docx w n_pages (S page_num) pages' with_tables
                   table_style;
      Ok (ops ++ rest)
  end.

(** [pdf_to_docx]: what the document holds when it is saved; an
    exception on the way leaves no document. *)
Definition pdf_to_docx (w : World) (pdf_path : string)
    (with_tables : option (list Pandas.DataFrame)) (table_style : string)
  : exc (list DocOp) :=
  do pdf <- fitz_open w pdf_path;
  pages_to_docx w (length pdf) 0 pdf with_tables table_style.

(** ** Reference formulation of the deduplication

    The candidates whose signature is neither in [seen] nor carried by an
    earlier candidate of the list; [combine_tables] is compared with it
    below. *)
Fixpoint first_per_signature (w : World) (seen : gset string)
    (l : list Pandas.DataFrame) : list Pandas.DataFrame :=
  match l with
  | [] => []
  | t :: l' =>
      if decide (signature w t ∈ seen) then first_per_signature w seen l'
      else t :: first_per_signature w ({[signature w t]} ∪ seen) l'
  end.

(** The non-empty candidates in the order [combine_tables] meets them. *)
Definition candidates (all_tables : list (list Pandas.DataFrame))
  : list Pandas.DataFrame :=
  filter (λ table, Pandas.empty table = false) (concat all_tables).

(** ** The claims of the specification, in its words *)

(** A cell that holds nothing: missing, or the empty string. *)
Definition cell_is_blank (v : Pandas.value) : bool :=
  match v with
  | Pandas.VNone | Pandas.VNaN => true
  | Pandas.VStr s => bool_decide (s = "")
  | Pandas.VInt _ => false
  end.

(** "entirely empty (zero rows or zero non-empty cells)" *)
Definition grid_entirely_empty (table : Pandas.DataFrame) : bool :=
  Nat.eqb (length (Pandas.values table)) 0
  || forallb (forallb cell_is_blank) (Pandas.values table).

(** ** Test data *)

Definition txt (s : string) : Pandas.value := Pandas.VStr s.

Definition repr (v : Pandas.value) : string :=
  match v with
  | Pandas.VNone => "None"
  | Pandas.VNaN => "nan"
  | Pandas.VStr s => "'" +:+ s +:+ "'"
  | Pandas.VInt z => pretty z
  end.

(** A printer in the style of numpy's for an array of objects. *)
Definition demo_np_str (l : list Pandas.value) : string :=
  "[" +:+ String.concat " " (repr <$> l) +:+ "]".

Definition frame (cols : list Pandas.value) (rows : list (list Pandas.value))
  : Pandas.DataFrame :=
  {| Pandas.columns := cols; Pandas.values := rows; Pandas.attrs := ∅ |}.

(** The code points of a text written in ASCII. *)
Definition codepoints (s : string) : list N :=
  N_of_ascii <$> list_ascii_of_string s.

(** The table styles of the template python-docx starts a document from,
    as far as [get_table_style_name] names them: it has the three styles
    ['Table Grid'], ['Light List'] and ['Medium Shading 1 Accent 1'] and
    none called ['Table Normal']. *)
Definition default_template (style : string) : bool :=
  bool_decide (style ∈ ["Table Grid"; "Light List";
                        "Medium Shading 1 Accent 1"]).

(** A world around one document stored at ["doc.pdf"]; no other path
    opens, Camelot and Tabula find nothing; [import jpype] succeeds or
    raises [ImportError]. *)
Definition demo_world (doc : Fitz.Document) (jpype java : bool) : World :=
  {| fitz_open := λ path,
       if decide (path = "doc.pdf") then Ok doc
       else Raise (OtherError "no such file");
     camelot_read_pdf := λ _ _ _, Ok [];
     tabula_read_pdf := λ _ _ _, Ok [];
     import_module := λ m, if jpype then Ok () else Raise ImportError;
     check_output := λ _, if java then Ok "openjdk" else Raise (OtherError "java");
     np_str := demo_np_str;
     docx_styles := default_template |}.

(** Two 3x4 tables with the same 3x3 corner and different last columns. *)
Definition corner_a : Pandas.DataFrame :=
  frame [txt "h1"; txt "h2"; txt "h3"; txt "h4"]
    [[txt "1"; txt "2"; txt "3"; txt "A"];
     [txt "4"; txt "5"; txt "6"; txt "B"];
     [txt "7"; txt "8"; txt "9"; txt "C"]].

Definition corner_b : Pandas.DataFrame :=
  frame [txt "h1"; txt "h2"; txt "h3"; txt "h4"]
    [[txt "1"; txt "2"; txt "3"; txt "X"];
     [txt "4"; txt "5"; txt "6"; txt "Y"];
     [txt "7"; txt "8"; txt "9"; txt "Z"]].

(** A 1x1 table whose only cell is the empty string, and a table without
    rows. *)
Definition blank_table : Pandas.DataFrame := frame [txt "c"] [[txt ""]].
Definition no_rows_table : Pandas.DataFrame := frame [txt "c"] [].

(** A table object that has every attribute the program reads, with
    the given cells, all present. *)
Definition table_of_grid (r : Fitz.Rect) (grid : list (list Pandas.value))
  : Fitz.Table :=
  {| Fitz.rect := Ok r;
     Fitz.row_count := length grid;
     Fitz.column_count := Ok (length (default [] (head grid)));
     Fitz.extract_cell := λ i j,
       Ok (match grid !! i with
           | Some row => Fitz.mkCell <$> row !! j
           | None => None
           end) |}.

(** A table object as PyMuPDF's [find_tables] gives it: it has
    [row_count] (and [col_count], [bbox], [extract()], which the program
    does not read) and none of [rect], [column_count], [extract_cell]. *)
Definition detected_table (rows : nat) : Fitz.Table :=
  {| Fitz.rect := Raise AttributeError;
     Fitz.row_count := rows;
     Fitz.column_count := Raise AttributeError;
     Fitz.extract_cell := λ _ _, Raise AttributeError |}.

Definition rect_0_0_100_50 : Fitz.Rect :=
  {| Fitz.x0 := 0; Fitz.y0 := 0; Fitz.x1 := 100; Fitz.y1 := 50 |}.

(** Whether a probe answers true. *)
Definition compatible (w : World) (pdf_path : string) (e : Extractor) : bool :=
  match is_compatible w e pdf_path with
  | Ok b => b
  | Raise _ => false
  end.

(** A page without text carrying one 2x2 table, a table object of the
    kind of [table_of_grid], and the one-page document made of it. *)
Definition scanned_page : Fitz.Page :=
  {| Fitz.get_text := [];
     Fitz.get_text_blocks := [];
     Fitz.find_tables :=
       [table_of_grid rect_0_0_100_50
          [[txt "Item"; txt "Qty"]; [txt "pen"; txt "2"]]] |}.

Definition scanned_doc : Fitz.Document := [scanned_page].

(** What an extractor returns on a page, [[]] if it raises. *)
Definition extracted (w : World) (pdf_path : string) (page_num : Z)
    (e : Extractor) : list Pandas.DataFrame :=
  match extract_tables w e pdf_path page_num with
  | Ok l => l
  | Raise _ => []
  end.

(** A page with a text layer: a title above the table, a block inside
    the table region and a footer below it. *)
Definition title_block : Fitz.Block :=
  {| Fitz.b_x0 := 0; Fitz.b_y0 := -20; Fitz.b_x1 := 100; Fitz.b_y1 := -5;
     Fitz.b_text := "Stock"; Fitz.b_no := 0; Fitz.b_type := 0 |}.
Definition inner_block : Fitz.Block :=
  {| Fitz.b_x0 := 10; Fitz.b_y0 := 10; Fitz.b_x1 := 50; Fitz.b_y1 := 20;
     Fitz.b_text := "Item Qty"; Fitz.b_no := 1; Fitz.b_type := 0 |}.
Definition footer_block : Fitz.Block :=
  {| Fitz.b_x0 := 0; Fitz.b_y0 := 60; Fitz.b_x1 := 100; Fitz.b_y1 := 70;
     Fitz.b_text := "Page 1 of 1"; Fitz.b_no := 2; Fitz.b_type := 0 |}.

Definition text_page : Fitz.Page :=
  {| Fitz.get_text := codepoints "Stock Item Qty pen 2";
     Fitz.get_text_blocks := [footer_block; inner_block; title_block];
     Fitz.find_tables := Fitz.find_tables scanned_page |}.

Definition text_doc : Fitz.Document := [text_page].

(** The same page as PyMuPDF gives it: the table region is a
    [detected_table]; and the page when no region is detected. *)
Definition detected_page : Fitz.Page :=
  {| Fitz.get_text := codepoints "Stock Item Qty pen 2";
     Fitz.get_text_blocks := [footer_block; inner_block; title_block];
     Fitz.find_tables := [detected_table 2] |}.

Definition plain_page : Fitz.Page :=
  {| Fitz.get_text := codepoints "Stock Item Qty pen 2";
     Fitz.get_text_blocks := [footer_block; inner_block; title_block];
     Fitz.find_tables := [] |}.

(** The frame the PyMuPDF adapter builds from the grid of
    [scanned_page], and the same tagged with page 0. *)
Definition item_table : Pandas.DataFrame :=
  frame [txt "Item"; txt "Qty"] [[txt "pen"; txt "2"]].

Definition item_table_page0 : Pandas.DataFrame :=
  Pandas.set_attrs {[ "page" := 0%Z ]} item_table.

(** The same table as Tabula reports it, under another header. *)
Definition tabula_item_table : Pandas.DataFrame :=
  frame [txt "Item"; txt "Quantity"] [[txt "pen"; txt "2"]].

(** Worlds around [text_doc] for the two passes of Camelot: the lattice
    pass finds one table with the given accuracy, the stream pass does what
    [stream] says; Tabula's lattice pass finds one table. *)
Definition camelot_world (lattice_accuracy : Q)
    (stream : exc (list CamelotTable)) : World :=
  {| fitz_open := λ path,
       if decide (path = "doc.pdf") then Ok text_doc
       else Raise (OtherError "no such file");
     camelot_read_pdf := λ _ _ fl,
       match fl with
       | Lattice => Ok [{| df := item_table; accuracy := lattice_accuracy |}]
       | Stream => stream
       end;
     tabula_read_pdf := λ _ _ fl,
       match fl with
       | Lattice => Ok [tabula_item_table]
       | Stream => Raise (OtherError "stream")
       end;
     import_module := λ m, Ok ();
     check_output := λ _, Ok "openjdk";
     np_str := demo_np_str;
     docx_styles := default_template |}.

(** A world around one document in which Camelot finds nothing, Tabula's
    lattice pass reports one table on the first page, and [import jpype]
    does what [jpype] says. *)
Definition tabula_world (doc : Fitz.Document) (jpype : exc unit) : World :=
  {| fitz_open := λ path,
       if decide (path = "doc.pdf") then Ok doc
       else Raise (OtherError "no such file");
     camelot_read_pdf := λ _ _ _, Ok [];
     tabula_read_pdf := λ _ pages fl,
       match fl with
       | Lattice => if decide (pages = 1%Z) then Ok [tabula_item_table] else Ok []
       | Stream => Ok []
       end;
     import_module := λ m, jpype;
     check_output := λ _, Ok "openjdk";
     np_str := demo_np_str;
     docx_styles := default_template |}.

(** Tabula's table tagged with page 0. *)
Definition tabula_item_table_page0 : Pandas.DataFrame :=
  Pandas.set_attrs {[ "page" := 0%Z ]} tabula_item_table.

(** The values [combine_tables] looks at besides the shape. *)
Definition corner (table : Pandas.DataFrame) : list Pandas.value :=
  Pandas.flatten (sample table).

(** Whether some character of the text is not white space. *)
Definition has_nonspace (s : list N) : bool :=
  existsb (λ c, negb (is_space c)) s.

(** One block starts no lower than the other. *)
Definition above (a b : Fitz.Block) : Prop := (Fitz.b_y0 a <= Fitz.b_y0 b)%Q.

(** The blocks whose top coordinate is [q]. *)
Definition at_height (q : Q) (b : Fitz.Block) : Prop :=
  Qeq_bool (Fitz.b_y0 b) q = true.

Definition is_heading (op : DocOp) : bool :=
  match op with
  | Heading _ _ => true
  | _ => false
  end.

Definition is_page_break (op : DocOp) : bool :=
  match op with
  | PageBreak => true
  | _ => false
  end.


(** ** table_extractors.py: [export_tables_to_csv] *)

(** The file name given to a table: its page tag plus one ([attrs.get(
    'page', 0)]) and its position in the list plus one. *)
Definition csv_name (base_filename : string) (i : nat)
    (table : Pandas.DataFrame) : string :=
  let page_num := default 0%Z (Pandas.attrs table !! "page") in
  base_filename +:+ "_page" +:+ pretty (page_num + 1)%Z
  +:+ "_table" +:+ pretty (i + 1)%nat +:+ ".csv".

(** [export_tables_to_csv]: the files written, in order, each with the
    table written to it; [join] stands for [os.path.join]. *)
Definition export_tables_to_csv (join : string → string → string)
    (tables : list Pandas.DataFrame) (output_dir base_filename : string)
  : list (string * Pandas.DataFrame) :=
  imap (λ i table, (join output_dir (csv_name base_filename i table), table))
    tables.

(** Whether a character occurs in a string. *)
Fixpoint contains (c : ascii) (s : string) : bool :=
  match s with
  | EmptyString => false
  | String c' s' => bool_decide (c' = c) || contains c s'
  end.

(** ** app.py: [allowed_file] *)

Definition ALLOWED_EXTENSIONS : gset string :=
  {[ "jpg"; "jpeg"; "png"; "tiff"; "tif"; "pdf" ]}.

(** [str.lower] on ASCII letters. *)
Definition lower_char (c : ascii) : ascii :=
  let n := nat_of_ascii c in
  if Nat.leb 65 n && Nat.leb n 90 then ascii_of_nat (n + 32) else c.

Fixpoint lower (s : string) : string :=
  match s with
  | EmptyString => EmptyString
  | String c s' => String (lower_char c) (lower s')
  end.

(** [filename.rsplit('.', 1)[1]]: what follows the last dot; [None]
    when there is no dot (the list has one element only). *)
Fixpoint rsplit_dot_1 (filename : string) : option string :=
  match filename with
  | EmptyString => None
  | String c s' =>
      match rsplit_dot_1 s' with
      | Some ext => Some ext
      | None => if bool_decide (c = "."%char) then Some s' else None
      end
  end.

(** [allowed_file] *)
Definition allowed_file (filename : string) : bool :=
  contains "."%char filename
  && match rsplit_dot_1 filename with
     | Some ext => bool_decide (lower ext ∈ ALLOWED_EXTENSIONS)
     | None => false
     end.

(** * Properties *)

(** ** The error monad *)

Lemma bind_Ok {A B} (c : exc A) (f : A → exc B) (b : B) :
  bind c f = Ok b ↔ ∃ a, c = Ok a ∧ f a = Ok b.
Proof.
  destruct c as [a|e]; simpl; split.
  - eauto.
  - by intros (a' & [= <-] & ?).
  - done.
  - by intros (a' & ? & ?).
Qed.

Lemma try_except_total {A} (c : exc A) (h : exn → exc A) :
  (∀ e, ∃ a, h e = Ok a) → ∃ a, try_except c h = Ok a.
Proof. intros Hh. destruct c as [a|e]; simpl; eauto. Qed.

Lemma take_min_length {A} (n : nat) (l : list A) :
  take (Nat.min n (length l)) l = take n l.
Proof.
  destruct (Nat.le_gt_cases n (length l)) as [Hle|Hgt].
  - by rewrite Nat.min_l.
  - rewrite Nat.min_r by lia. rewrite !take_ge by lia. done.
Qed.

Lemma filter_all {A} (P : A → Prop) `{!∀ x, Decision (P x)} (l : list A) :
  (∀ x, x ∈ l → P x) → filter P l = l.
Proof.
  induction l as [|x l IH]; intros Hall; [done|].
  rewrite filter_cons_True by (apply Hall; left).
  f_equal. apply IH. intros y Hy. apply Hall. by right.
Qed.

(** ** The reconciler *)

Section reconciler.
Context (w : World).
Implicit Types (t u : Pandas.DataFrame) (l : list Pandas.DataFrame)
  (seen : gset string).

Lemma combine_loop_spec l unique seen :
  (foldl (combine_step w) (unique, seen) l).1
  = unique ++ first_per_signature w seen (candidates [l]).
Proof.
  unfold candidates. simpl. rewrite app_nil_r.
  revert unique seen. induction l as [|t l IH]; intros unique seen; simpl.
  { by rewrite app_nil_r. }
  unfold combine_step at 2. simpl.
  destruct (Pandas.empty t) eqn:Hemp.
  - rewrite filter_cons_False by congruence. apply IH.
  - rewrite filter_cons_True by done. simpl.
    destruct (decide (signature w t ∈ seen)); [apply IH|].
    rewrite IH, <-app_assoc. done.
Qed.

Lemma combine_tables_spec all_tables :
  combine_tables w all_tables = first_per_signature w ∅ (candidates all_tables).
Proof.
  destruct all_tables as [|l0 ls]; [done|].
  unfold combine_tables. set (l := l0 :: ls).
  fold (candidates l).
  rewrite combine_loop_spec. simpl. f_equal.
  unfold candidates. simpl. rewrite app_nil_r.
  rewrite list_filter_filter. apply list_filter_iff. tauto.
Qed.

Lemma first_per_signature_sublist seen l :
  first_per_signature w seen l `sublist_of` l.
Proof.
  revert seen. induction l as [|t l IH]; intros seen; simpl; [constructor|].
  case_decide; [apply sublist_cons|apply sublist_skip]; apply IH.
Qed.

Lemma first_per_signature_fresh seen l t :
  t ∈ first_per_signature w seen l → signature w t ∉ seen.
Proof.
  revert seen. induction l as [|u l IH]; intros seen; simpl.
  { by intros ?%elem_of_nil. }
  case_decide as Hin; [apply IH|].
  intros [->|Ht]%elem_of_cons; [done|].
  apply IH in Ht. set_solver.
Qed.

Lemma first_per_signature_NoDup seen l :
  NoDup (signature w <$> first_per_signature w seen l).
Proof.
  revert seen. induction l as [|u l IH]; intros seen; simpl; [constructor|].
  case_decide as Hin; [apply IH|].
  rewrite fmap_cons. apply NoDup_cons. split; [|apply IH].
  intros (t & Heq & Ht)%list_elem_of_fmap.
  apply first_per_signature_fresh in Ht. set_solver.
Qed.

Lemma first_per_signature_covers seen l t :
  t ∈ l → signature w t ∈ seen
          ∨ ∃ t', t' ∈ first_per_signature w seen l
                 ∧ signature w t' = signature w t.
Proof.
  revert seen. induction l as [|u l IH]; intros seen; simpl.
  { by intros ?%elem_of_nil. }
  intros [->|Ht]%elem_of_cons.
  - case_decide; [by left|]. right. exists u. split; [left|done].
  - case_decide as Hin.
    + apply IH, Ht.
    + destruct (IH ({[signature w u]} ∪ seen) Ht) as [Hs|(t' & Ht' & Hsig)].
      * apply elem_of_union in Hs as [Hs%elem_of_singleton|Hs]; [|by left].
        right. exists u. split; [left|done].
      * right. exists t'. split; [by right|done].
Qed.

Lemma first_per_signature_first seen l t :
  t ∈ first_per_signature w seen l →
  ∃ l1 l2, l = l1 ++ t :: l2
           ∧ ∀ u, u ∈ l1 → signature w u ≠ signature w t.
Proof.
  revert seen. induction l as [|v l IH]; intros seen; simpl.
  { by intros ?%elem_of_nil. }
  case_decide as Hin.
  - intros Ht. pose proof (first_per_signature_fresh _ _ _ Ht) as Hfresh.
    destruct (IH _ Ht) as (l1 & l2 & -> & Hl1).
    exists (v :: l1), l2. split; [done|].
    intros u [->|Hu]%elem_of_cons; [congruence|by apply Hl1].
  - intros [->|Ht]%elem_of_cons.
    + exists [], l. split; [done|]. by intros u ?%elem_of_nil.
    + pose proof (first_per_signature_fresh _ _ _ Ht) as Hfresh.
      destruct (IH _ Ht) as (l1 & l2 & -> & Hl1).
      exists (v :: l1), l2. split; [done|].
      intros u [->|Hu]%elem_of_cons; [set_solver|by apply Hl1].
Qed.

Lemma first_per_signature_id seen l :
  NoDup (signature w <$> l) → (∀ t, t ∈ l → signature w t ∉ seen) →
  first_per_signature w seen l = l.
Proof.
  revert seen. induction l as [|v l IH]; intros seen Hnd Hfresh; simpl; [done|].
  rewrite fmap_cons in Hnd. apply NoDup_cons in Hnd as [Hv Hnd].
  rewrite decide_False by (apply Hfresh; left).
  f_equal. apply IH; [done|].
  intros t Ht. apply not_elem_of_union. split; [|apply Hfresh; by right].
  intros Heq%elem_of_singleton. apply Hv. rewrite <-Heq.
  by apply list_elem_of_fmap_2.
Qed.

Lemma candidates_nonempty all_tables t :
  t ∈ candidates all_tables → Pandas.empty t = false.
Proof. unfold candidates. by intros [? _]%list_elem_of_filter. Qed.

Lemma combine_tables_sublist all_tables :
  combine_tables w all_tables `sublist_of` candidates all_tables.
Proof. rewrite combine_tables_spec. apply first_per_signature_sublist. Qed.

End reconciler.

(** ** Reconciliation: signatures, first occurrence, fixed point *)

(** The scenario of the specification: two 3x4 candidates from two
    backends agree on the 3x3 corner and differ elsewhere; one table is
    kept, the one met first. *)
Example combine_tables_same_corner :
  corner_a ≠ corner_b
  ∧ combine_tables (demo_world [] false false) [[corner_a]; [corner_b]]
    = [corner_a].
Proof. split; [discriminate|]. vm_compute. reflexivity. Qed.

(** C6, as stated, fails: a 1x1 candidate whose only cell is the empty
    string has no non-empty cell, and it is kept. *)
Lemma combine_tables_keeps_blank_grid :
  grid_entirely_empty blank_table = true
  ∧ combine_tables (demo_world [] false false) [[blank_table]] = [blank_table].
Proof. split; vm_compute; reflexivity. Qed.

(** C6, amended. A candidate with zero rows or zero columns (pandas'
    [empty]) is dropped before any signature is computed and never
    appears in the reconciled output. *)
Theorem combine_tables_drops_empty (w : World)
    (all_tables : list (list Pandas.DataFrame)) (t : Pandas.DataFrame) :
  (length (Pandas.values t) = 0%nat ∨ length (Pandas.columns t) = 0%nat) →
  (t ∉ candidates all_tables) ∧ (t ∉ combine_tables w all_tables).
Proof.
  intros Hempty.
  assert (Pandas.empty t = true) as Ht.
  { unfold Pandas.empty, Pandas.shape. simpl.
    destruct Hempty as [-> | ->]; simpl; [done|by rewrite orb_true_r]. }
  assert (t ∉ candidates all_tables) as Hnot.
  { intros Hin%candidates_nonempty. congruence. }
  split; [done|].
  intros Hin. apply Hnot.
  eapply sublist_subseteq; [apply combine_tables_sublist|done].
Qed.

Lemma combine_tables_drops_empty_witness :
  (length (Pandas.values no_rows_table) = 0%nat
   ∨ length (Pandas.columns no_rows_table) = 0%nat)
  ∧ no_rows_table ∉ combine_tables (demo_world [] false false)
                       [[no_rows_table; corner_a]; [no_rows_table]].
Proof.
  split; [left; reflexivity|].
  apply (combine_tables_drops_empty (demo_world [] false false)
           [[no_rows_table; corner_a]; [no_rows_table]] no_rows_table).
  left. reflexivity.
Defined.

(** C8. Reconciling the reconciled tables again returns them unchanged. *)
Theorem combine_tables_idempotent (w : World)
    (all_tables : list (list Pandas.DataFrame)) :
  combine_tables w [combine_tables w all_tables] = combine_tables w all_tables.
Proof.
  rewrite (combine_tables_spec w [_]).
  assert (candidates [combine_tables w all_tables] = combine_tables w all_tables)
    as ->.
  { unfold candidates at 1. simpl. rewrite app_nil_r. apply filter_all.
    intros t Ht. apply (candidates_nonempty all_tables).
    eapply sublist_subseteq; [apply combine_tables_sublist|done]. }
  apply first_per_signature_id.
  - rewrite combine_tables_spec. apply first_per_signature_NoDup.
  - intros t _. apply not_elem_of_empty.
Qed.

(** Any regrouping of the reconciled tables into lists is left unchanged
    as well. *)
Lemma combine_tables_fixed_point (w : World)
    (all_tables ls : list (list Pandas.DataFrame)) :
  concat ls = combine_tables w all_tables →
  combine_tables w ls = combine_tables w all_tables.
Proof.
  intros Hls. rewrite (combine_tables_spec w ls).
  assert (candidates ls = combine_tables w all_tables) as ->.
  { unfold candidates at 1. rewrite Hls. apply filter_all.
    intros t Ht. apply (candidates_nonempty all_tables).
    eapply sublist_subseteq; [apply combine_tables_sublist|done]. }
  apply first_per_signature_id.
  - rewrite combine_tables_spec. apply first_per_signature_NoDup.
  - intros t _. apply not_elem_of_empty.
Qed.

(** ** Loops that may raise *)

Lemma map_exc_Ok {A B} (f : A → exc B) (l : list A) (rs : list B) :
  map_exc f l = Ok rs ↔ Forall2 (λ a b, f a = Ok b) l rs.
Proof.
  revert rs. induction l as [|a l IH]; intros rs; simpl.
  - split; [by intros [= <-]; constructor|by intros ->%Forall2_nil_inv_l].
  - rewrite bind_Ok. split.
    + intros (b & Hb & (r & Hr & [= <-])%bind_Ok).
      constructor; [done|by apply IH].
    + intros (b & r & Hb & Hr & ->)%Forall2_cons_inv_l.
      exists b. split; [done|]. apply bind_Ok. exists r.
      split; [by apply IH|done].
Qed.

(** ** Failures at the adapter boundary *)

Lemma camelot_extract_tables_total (w : World) (pdf_path : string) (page_num : Z) :
  ∃ l, camelot_extract_tables w pdf_path page_num = Ok l.
Proof. apply try_except_total. eauto. Qed.

Lemma tabula_extract_tables_total (w : World) (pdf_path : string) (page_num : Z) :
  ∃ l, tabula_extract_tables w pdf_path page_num = Ok l.
Proof. apply try_except_total. eauto. Qed.

(** C3: the PyMuPDF adapter has no handler. On a path that does not open
    and on a page past the end its [extract_tables] raises, where the
    Camelot and Tabula adapters, which wrap their body in a handler,
    return a list for every document and page. *)
Theorem pymupdf_extract_tables_raises :
  extract_tables (demo_world scanned_doc false false) PyMuPDFTableExtractor
    "missing.pdf" 0 = Raise (OtherError "no such file")
  ∧ extract_tables (demo_world scanned_doc false false) PyMuPDFTableExtractor
      "doc.pdf" 1 = Raise IndexError
  ∧ (∀ w pdf_path page_num,
       ∃ l, extract_tables w CamelotTableExtractor pdf_path page_num = Ok l)
  ∧ (∀ w pdf_path page_num,
       ∃ l, extract_tables w TabulaTableExtractor pdf_path page_num = Ok l).
Proof.
  split; [reflexivity|]. split; [reflexivity|]. split.
  - apply camelot_extract_tables_total.
  - apply tabula_extract_tables_total.
Qed.

(** ** The PyMuPDF adapter on the table objects of the library *)

Lemma pymupdf_table_no_column_count (t : Fitz.Table) (e : exn) :
  Fitz.column_count t = Raise e →
  pymupdf_table t
  = if Nat.eqb (Fitz.row_count t) 0 then Ok None else Raise e.
Proof.
  intros Hc. unfold pymupdf_table, pymupdf_rows.
  destruct (Fitz.row_count t) as [|n]; [done|].
  cbn [seq map_exc Nat.eqb]. unfold pymupdf_row at 1. by rewrite Hc.
Qed.

Lemma pymupdf_tables_no_column_count (ts : list Fitz.Table)
    (frames : list (option Pandas.DataFrame)) :
  Forall (λ t, raises (Fitz.column_count t)) ts →
  map_exc pymupdf_table ts = Ok frames →
  Forall (λ t, Fitz.row_count t = 0%nat) ts ∧ omap id frames = [].
Proof.
  intros Hts Hrun%map_exc_Ok.
  induction Hrun as [|t fr ts frames Ht _ IH]; [done|].
  apply Forall_cons in Hts as [[e He] Hts].
  rewrite (pymupdf_table_no_column_count t e He) in Ht.
  destruct (Nat.eqb_spec (Fitz.row_count t) 0) as [Hz|_]; [|done].
  injection Ht as <-. destruct (IH Hts) as [Hrows Hnone].
  split; [by constructor|done].
Qed.

(** C7. The adapter reads [table.column_count] and [table.extract_cell],
    which the table objects of PyMuPDF do not have: on such an object
    with at least one row it raises before any grid is built, and with no
    row it appends nothing. So the adapter returns no table at all, and
    the header rule of lines 43-48 is never reached: a page on which a
    table of two rows is detected makes [extract_tables] raise
    [AttributeError], and whenever the adapter returns on a page whose
    table objects lack [column_count], it returns the empty list. *)
Theorem pymupdf_adapter_builds_no_frame :
  extract_tables (demo_world [detected_page] false false)
    PyMuPDFTableExtractor "doc.pdf" 0 = Raise AttributeError
  ∧ (∀ t e, Fitz.column_count t = Raise e → Fitz.row_count t ≠ 0%nat →
       pymupdf_table t = Raise e)
  ∧ (∀ t e, Fitz.column_count t = Raise e → Fitz.row_count t = 0%nat →
       pymupdf_table t = Ok None)
  ∧ (∀ w pdf_path page_num doc page l,
       fitz_open w pdf_path = Ok doc →
       Fitz.getitem doc page_num = Ok page →
       Forall (λ t, raises (Fitz.column_count t)) (Fitz.find_tables page) →
       extract_tables w PyMuPDFTableExtractor pdf_path page_num = Ok l →
       l = [] ∧ Forall (λ t, Fitz.row_count t = 0%nat) (Fitz.find_tables page)).
Proof.
  split; [reflexivity|]. split; [|split].
  - intros t e He Hrows. rewrite (pymupdf_table_no_column_count t e He).
    by destruct (Nat.eqb_spec (Fitz.row_count t) 0).
  - intros t e He Hrows. rewrite (pymupdf_table_no_column_count t e He).
    by rewrite Hrows.
  - intros w pdf_path page_num doc page l Hopen Hpage Hts. simpl.
    unfold pymupdf_extract_tables. rewrite Hopen. cbn [bind].
    rewrite Hpage. cbn [bind]. intros (frames & Hrun & [= <-])%bind_Ok.
    by destruct (pymupdf_tables_no_column_count _ _ Hts Hrun).
Qed.

(** ** Compatibility probes and backend selection *)

Lemma camelot_is_compatible_total (w : World) (pdf_path : string) :
  ∃ b, camelot_is_compatible w pdf_path = Ok b.
Proof. apply try_except_total. eauto. Qed.

(** The probe of Tabula by what [import jpype] does. *)
Lemma tabula_is_compatible_cases (w : World) (pdf_path : string) :
  tabula_is_compatible w pdf_path
  = match py_import w "jpype" with
    | Ok _ => Ok true
    | Raise ImportError =>
        Ok (match check_output w ["java"; "-version"] with
            | Ok _ => true
            | Raise _ => false
            end)
    | Raise e => Raise e
    end.
Proof.
  unfold tabula_is_compatible.
  destruct (py_import w "jpype") as [u|e]; [done|].
  destruct e; try done. simpl.
  by destruct (check_output w ["java"; "-version"]).
Qed.

Lemma is_compatible_compatible (w : World) (e : Extractor) (pdf_path : string)
    (b : bool) :
  is_compatible w e pdf_path = Ok b → compatible w pdf_path e = b.
Proof. unfold compatible. by intros ->. Qed.

Lemma filter_exc_Ok {A} (p : A → exc bool) (q : A → bool) (l : list A) :
  (∀ a, a ∈ l → p a = Ok (q a)) →
  filter_exc p l = Ok (filter (λ a, q a = true) l).
Proof.
  induction l as [|a l IH]; intros Hp; [done|]. simpl.
  rewrite (Hp a) by left. rewrite IH by (intros a' Ha'; apply Hp; by right).
  simpl. destruct (q a) eqn:Ha.
  - by rewrite filter_cons_True.
  - by rewrite filter_cons_False by congruence.
Qed.

Lemma pick_extractor_spec (l : list Extractor) :
  pick_extractor l
  = if decide (CamelotTableExtractor ∈ l) then CamelotTableExtractor
    else if decide (TabulaTableExtractor ∈ l) then TabulaTableExtractor
    else default PyMuPDFTableExtractor (head l).
Proof.
  destruct l as [|first l']; [done|]. set (l := first :: l').
  unfold pick_extractor. fold l.
  destruct (list_find (λ e, e = CamelotTableExtractor) l) as [[i e]|] eqn:Hc.
  - apply list_find_Some in Hc as (Hi & -> & _).
    rewrite decide_True; [done|]. by eapply list_elem_of_lookup_2.
  - apply list_find_None in Hc. rewrite Forall_forall in Hc.
    rewrite decide_False by (intros Hin; by apply (Hc _ Hin)).
    destruct (list_find (λ e, e = TabulaTableExtractor) l) as [[i e]|] eqn:Ht.
    + apply list_find_Some in Ht as (Hi & -> & _).
      rewrite decide_True; [done|]. by eapply list_elem_of_lookup_2.
    + apply list_find_None in Ht. rewrite Forall_forall in Ht.
      by rewrite decide_False by (intros Hin; by apply (Ht _ Hin)).
Qed.

(** The selector by what the probe of Tabula does: its exception comes
    out, its answer enters the choice. *)
Lemma get_best_extractor_cases (w : World) (pdf_path : string) :
  get_best_extractor w pdf_path
  = match tabula_is_compatible w pdf_path with
    | Ok t =>
        Ok (if compatible w pdf_path CamelotTableExtractor
            then CamelotTableExtractor
            else if t then TabulaTableExtractor else PyMuPDFTableExtractor)
    | Raise e => Raise e
    end.
Proof.
  unfold get_best_extractor, create_extractors, compatible. simpl.
  destruct (camelot_is_compatible_total w pdf_path) as [c ->]. simpl.
  destruct (tabula_is_compatible w pdf_path) as [t|e]; simpl; [|done].
  by destruct c, t.
Qed.

Lemma get_best_extractor_Ok (w : World) (pdf_path : string) (sel : Extractor) :
  get_best_extractor w pdf_path = Ok sel →
  (∀ e, is_compatible w e pdf_path = Ok (compatible w pdf_path e))
  ∧ sel = if compatible w pdf_path CamelotTableExtractor
          then CamelotTableExtractor
          else if compatible w pdf_path TabulaTableExtractor
               then TabulaTableExtractor
               else PyMuPDFTableExtractor.
Proof.
  rewrite get_best_extractor_cases.
  destruct (tabula_is_compatible w pdf_path) as [t|e] eqn:Ht; [|done].
  intros [= <-]. split.
  - intros [| |]; unfold compatible; simpl.
    + done.
    + by destruct (camelot_is_compatible_total w pdf_path) as [c ->].
    + by rewrite Ht.
  - unfold compatible. cbn [is_compatible]. by rewrite Ht.
Qed.

(** C9. The probe of Tabula lets an exception out: it catches
    [ImportError] only around [import jpype], so any other exception
    raised while jpype is imported leaves the probe. The other handlers
    do what the claim says: the probe of Camelot and the inner handler of
    the probe of Tabula catch everything, and a failure there gives
    false. Where the probes return, each answer is the probe's own: the
    list comprehension over any list of extractors is the filter by each
    extractor's answer. *)
Theorem is_compatible_may_raise :
  is_compatible (tabula_world [plain_page] (Raise (OtherError "jpype")))
    TabulaTableExtractor "doc.pdf" = Raise (OtherError "jpype")
  ∧ (∀ w pdf_path e, py_import w "jpype" = Raise e → e ≠ ImportError →
       is_compatible w TabulaTableExtractor pdf_path = Raise e)
  ∧ (∀ w pdf_path, py_import w "jpype" = Ok () →
       is_compatible w TabulaTableExtractor pdf_path = Ok true)
  ∧ (∀ w pdf_path, py_import w "jpype" = Raise ImportError →
       ∃ b, is_compatible w TabulaTableExtractor pdf_path = Ok b)
  ∧ (∀ w pdf_path, py_import w "jpype" = Raise ImportError →
       raises (check_output w ["java"; "-version"]) →
       is_compatible w TabulaTableExtractor pdf_path = Ok false)
  ∧ (∀ w pdf_path, ∃ b, is_compatible w CamelotTableExtractor pdf_path = Ok b)
  ∧ (∀ w pdf_path, raises (fitz_open w pdf_path) →
       is_compatible w CamelotTableExtractor pdf_path = Ok false)
  ∧ (∀ w pdf_path doc, fitz_open w pdf_path = Ok doc →
       raises (Fitz.getitem doc 0) →
       is_compatible w CamelotTableExtractor pdf_path = Ok false)
  ∧ (∀ w pdf_path, is_compatible w PyMuPDFTableExtractor pdf_path = Ok true)
  ∧ (∀ w pdf_path es,
       (∀ e, e ∈ es → ∃ b, is_compatible w e pdf_path = Ok b) →
       filter_exc (λ e, is_compatible w e pdf_path) es
       = Ok (filter (λ e, compatible w pdf_path e = true) es)).
Proof.
  split; [reflexivity|]. simpl.
  repeat split; try (intros w pdf_path); try rewrite tabula_is_compatible_cases.
  - intros e -> He. by destruct e.
  - by intros ->.
  - intros ->. eauto.
  - by intros -> [e ->].
  - apply camelot_is_compatible_total.
  - unfold camelot_is_compatible. by intros [e ->].
  - intros doc Hopen [e He]. unfold camelot_is_compatible.
    rewrite Hopen. simpl. by rewrite He.
  - intros es Hes. apply filter_exc_Ok. intros e He.
    destruct (Hes e He) as [b Hb]. unfold compatible. by rewrite Hb.
Qed.

(** C4. Where every probe returns, the selector returns Camelot when its
    probe answers true, else Tabula when its probe answers true, else the
    first compatible extractor left, which is PyMuPDF, also on an empty
    compatible list. It does not always return: an exception that leaves
    the probe of Tabula leaves the list comprehension of line 151 and
    [get_best_extractor] with it. *)
Theorem get_best_extractor_priority :
  get_best_extractor (tabula_world [plain_page] (Raise (OtherError "jpype")))
    "doc.pdf" = Raise (OtherError "jpype")
  ∧ (∀ w pdf_path e,
       is_compatible w TabulaTableExtractor pdf_path = Raise e →
       get_best_extractor w pdf_path = Raise e)
  ∧ (∀ w pdf_path t,
       is_compatible w TabulaTableExtractor pdf_path = Ok t →
       get_best_extractor w pdf_path
       = Ok (pick_extractor
               (filter (λ e, compatible w pdf_path e = true) create_extractors))
       ∧ get_best_extractor w pdf_path
         = Ok (if compatible w pdf_path CamelotTableExtractor
               then CamelotTableExtractor
               else if t then TabulaTableExtractor
                    else PyMuPDFTableExtractor))
  ∧ (∀ l, pick_extractor l
          = if decide (CamelotTableExtractor ∈ l) then CamelotTableExtractor
            else if decide (TabulaTableExtractor ∈ l) then TabulaTableExtractor
            else default PyMuPDFTableExtractor (head l))
  ∧ pick_extractor [] = PyMuPDFTableExtractor.
Proof.
  split; [reflexivity|].
  split; [|split; [|split; [apply pick_extractor_spec|done]]].
  - intros w pdf_path e He. rewrite get_best_extractor_cases.
    simpl in He. by rewrite He.
  - intros w pdf_path t Ht.
    assert (get_best_extractor w pdf_path
            = Ok (if compatible w pdf_path CamelotTableExtractor
                  then CamelotTableExtractor
                  else if t then TabulaTableExtractor
                       else PyMuPDFTableExtractor)) as Hbest.
    { rewrite get_best_extractor_cases. simpl in Ht. by rewrite Ht. }
    split; [|done]. rewrite Hbest. f_equal.
    pose proof (is_compatible_compatible _ _ _ _ Ht) as Hta.
    unfold create_extractors. rewrite filter_cons_True by done.
    destruct (compatible w pdf_path CamelotTableExtractor) eqn:Hc, t;
      repeat first [rewrite filter_cons_True by done
                   |rewrite filter_cons_False by congruence]; done.
Qed.

(** ** Layout: free text and table regions *)

Lemma insert_block_perm (b : Fitz.Block) (l : list Fitz.Block) :
  insert_block b l ≡ₚ b :: l.
Proof.
  induction l as [|c l IH]; simpl; [done|].
  destruct (Qltb _ _); [|done].
  rewrite IH. apply Permutation_swap.
Qed.

Lemma sort_blocks_perm (l : list Fitz.Block) : sort_blocks l ≡ₚ l.
Proof.
  induction l as [|b l IH]; simpl; [done|].
  unfold sort_blocks in *. simpl. by rewrite insert_block_perm, IH.
Qed.


Lemma kept_blocks_Ok (page : Fitz.Page) (kept : list Fitz.Block) :
  kept_blocks page = Ok kept
  ↔ ∃ rects,
      Forall2 (λ table r, Fitz.rect table = Ok r) (Fitz.find_tables page) rects
      ∧ kept = filter (λ block, overlaps_table rects block = false)
                 (sort_blocks (Fitz.get_text_blocks page)).
Proof.
  unfold kept_blocks, table_positions. rewrite bind_Ok.
  split; intros (rects & Hrects & Hkept); exists rects.
  - apply map_exc_Ok in Hrects. by injection Hkept as <-.
  - apply map_exc_Ok in Hrects. by rewrite Hkept.
Qed.

(** What [DocxStyler.add_table_from_dataframe] does with a header row:
    no table for a frame without columns, [KeyError] for a style the
    document does not have, else the cells. *)
Lemma DocxStyler_add_table_from_dataframe_cases (w : World)
    (d : Pandas.DataFrame) (style : string) :
  DocxStyler_add_table_from_dataframe w d style true
  = if Nat.eqb (length (Pandas.columns d)) 0 then Ok None
    else if docx_styles w style then add_table_from_dataframe d true
         else Raise KeyError.
Proof.
  unfold DocxStyler_add_table_from_dataframe, DocxStyler_add_styled_table,
    add_table_from_dataframe, add_styled_table, set_table_style.
  destruct (Nat.eqb (length (Pandas.columns d)) 0); [done|].
  by destruct (docx_styles w style).
Qed.

Lemma add_table_from_dataframe_Some (d : Pandas.DataFrame)
    (added : option (list (list DocxCell))) :
  add_table_from_dataframe d true = Ok added →
  added = None ↔ length (Pandas.columns d) = 0%nat.
Proof.
  unfold add_table_from_dataframe, add_styled_table.
  destruct (Nat.eqb_spec (length (Pandas.columns d)) 0) as [Hz|Hnz].
  - by intros [= <-].
  - intros (rows & _ & [= <-])%bind_Ok. split; [done|by intros ?].
Qed.

Lemma write_table_Ok (w : World) (table_style : string)
    (table : Pandas.DataFrame) (written : list DocOp) :
  write_table w table_style table = Ok written
  ↔ (length (Pandas.columns table) = 0%nat
     ∧ written = [Paragraph "Table" true (Some 12%nat);
                  Paragraph "" false None])
    ∨ (∃ rows,
         docx_styles w (get_table_style_name table_style) = true
         ∧ add_table_from_dataframe table true = Ok (Some rows)
         ∧ written = [Paragraph "Table" true (Some 12%nat);
                      TableOp rows (get_table_style_name table_style);
                      Paragraph "" false None]).
Proof.
  unfold write_table. rewrite DocxStyler_add_table_from_dataframe_cases.
  destruct (Nat.eqb_spec (length (Pandas.columns table)) 0) as [Hz|Hnz].
  - cbn [bind]. split.
    + intros [= <-]. by left.
    + intros [[_ ->]|(rows & _ & Hadd & _)]; [done|].
      apply add_table_from_dataframe_Some in Hadd.
      by apply Hadd in Hz.
  - destruct (docx_styles w (get_table_style_name table_style)).
    + split.
      * intros (added & Hadd & [= <-])%bind_Ok. right.
        destruct added as [rows|].
        -- by exists rows.
        -- apply add_table_from_dataframe_Some in Hadd.
           destruct Hnz. by apply Hadd.
      * intros [[Hz _]|(rows & _ & Hadd & ->)]; [done|]. by rewrite Hadd.
    + cbn [bind]. split; [done|].
      by intros [[Hz _]|(rows & ? & _)].
Qed.


Lemma page_to_docx_Ok (w : World) (n_pages page_num : nat) (page : Fitz.Page)
    (with_tables : option (list Pandas.DataFrame)) (table_style : string)
    (ops : list DocOp) :
  page_to_docx w n_pages page_num page with_tables table_style = Ok ops
  ↔ ∃ body,
      ops = [Heading ("Page " +:+ pretty (page_num + 1)%nat) 1]
            ++ body
            ++ (if Nat.ltb page_num (n_pages - 1) then [PageBreak] else [])
      ∧ if truthy (tables_of_page with_tables page_num)
        then ∃ kept tables,
               kept_blocks page = Ok kept
               ∧ Forall2 (λ table written,
                            write_table w table_style table = Ok written)
                   (tables_of_page with_tables page_num) tables
               ∧ body = ((λ block, Paragraph (Fitz.b_text block) false None)
                           <$> kept) ++ concat tables
        else body = (λ block, Paragraph (Fitz.b_text block) false None)
                      <$> sort_blocks (Fitz.get_text_blocks page).
Proof.
  unfold page_to_docx. rewrite bind_Ok.
  split.
  - intros (body & Hbody & [= <-]). exists body. split; [done|].
    destruct (truthy (tables_of_page with_tables page_num)).
    + apply bind_Ok in Hbody as (kept & Hkept & Hbody).
      apply bind_Ok in Hbody as (tables & Htables & [= <-]).
      exists kept, tables. by rewrite <-map_exc_Ok.
    + by injection Hbody as <-.
  - intros (body & -> & Hbody). exists body. split; [|done].
    destruct (truthy (tables_of_page with_tables page_num)).
    + destruct Hbody as (kept & tables & -> & Htables%map_exc_Ok & ->).
      cbn [bind]. by rewrite Htables.
    + by rewrite Hbody.
Qed.



(** A page on which PyMuPDF detects the region of the table: the
    conversion stops at [table.rect]. *)
Example page_to_docx_detected_page :
  page_to_docx (tabula_world [detected_page] (Ok ())) 1 0 detected_page
    (Some [tabula_item_table_page0]) "grid"
  = Raise AttributeError.
Proof. reflexivity. Qed.

(** The same page with a table object that has [rect]: the title and the
    footer are written in reading order, the block inside the region is
    not, the table follows. *)
Example page_to_docx_text_page :
  page_to_docx (tabula_world [text_page] (Ok ())) 1 0 text_page
    (Some [tabula_item_table_page0]) "grid"
  = Ok [Heading "Page 1" 1;
        Paragraph "Stock" false None;
        Paragraph "Page 1 of 1" false None;
        Paragraph "Table" true (Some 12%nat);
        TableOp [[{| cell_text := "Item"; cell_header := true |};
                  {| cell_text := "Quantity"; cell_header := true |}];
                 [{| cell_text := "pen"; cell_header := false |};
                  {| cell_text := "2"; cell_header := false |}]] "Table Grid";
        Paragraph "" false None].
Proof. vm_compute. reflexivity. Qed.

(** ** The page loop of [extract_all_tables] *)

Lemma try_extractor_Ok (w : World) (pdf_path : string) (page_num : Z)
    (acc r : list (list Pandas.DataFrame)) (e : Extractor) :
  try_extractor w pdf_path page_num acc e = Ok r →
  is_compatible w e pdf_path = Ok (compatible w pdf_path e)
  ∧ (compatible w pdf_path e = true →
     extract_tables w e pdf_path page_num = Ok (extracted w pdf_path page_num e))
  ∧ r = acc ++ filter (λ l, truthy l = true)
                 (extracted w pdf_path page_num
                    <$> filter (λ e, compatible w pdf_path e = true) [e]).
Proof.
  unfold try_extractor.
  destruct (is_compatible w e pdf_path) as [c|err] eqn:Hc; [|done]. cbn [bind].
  assert (compatible w pdf_path e = c) as Hcomp
    by (unfold compatible; by rewrite Hc).
  rewrite Hcomp. destruct c.
  - rewrite filter_cons_True by done. rewrite filter_nil.
    destruct (extract_tables w e pdf_path page_num) as [l|err] eqn:Hl; [|done].
    assert (extracted w pdf_path page_num e = l) as Hex
      by (unfold extracted; by rewrite Hl).
    cbn [bind]. intros [= <-]. split; [done|]. split; [by rewrite Hex|].
    rewrite fmap_cons, Hex, fmap_nil. destruct l as [|t l]; simpl.
    + rewrite filter_cons_False by done. by rewrite filter_nil, app_nil_r.
    + rewrite filter_cons_True by done. by rewrite filter_nil.
  - rewrite filter_cons_False by congruence. rewrite filter_nil.
    intros [= <-]. split; [done|]. split; [done|].
    simpl. by rewrite filter_nil, app_nil_r.
Qed.

Lemma for_each_try_extractor_Ok (w : World) (pdf_path : string) (page_num : Z)
    (es : list Extractor) (acc r : list (list Pandas.DataFrame)) :
  for_each (try_extractor w pdf_path page_num) es acc = Ok r →
  (∀ e, e ∈ es → compatible w pdf_path e = true →
     extract_tables w e pdf_path page_num = Ok (extracted w pdf_path page_num e))
  ∧ r = acc ++ filter (λ l, truthy l = true)
                 (extracted w pdf_path page_num
                    <$> filter (λ e, compatible w pdf_path e = true) es).
Proof.
  revert acc. induction es as [|e es IH]; intros acc; simpl.
  { intros [= <-]. split; [by intros e ?%elem_of_nil|].
    by rewrite filter_nil, app_nil_r. }
  intros (acc' & (_ & He & ->)%try_extractor_Ok & Hrest)%bind_Ok.
  destruct (IH _ Hrest) as [Hes ->]. split.
  - intros e' [->|He']%elem_of_cons; [done|by apply Hes].
  - rewrite <-app_assoc, <-filter_app, <-fmap_app, <-filter_app. done.
Qed.

Lemma filter_truthy_skip {A} (f : A → list Pandas.DataFrame)
    (P : A → Prop) `{!∀ x, Decision (P x)} `{!EqDecision A} (sel : A)
    (l : list A) :
  f sel = [] →
  filter (λ r, truthy r = true) (f <$> filter P l)
  = filter (λ r, truthy r = true) (f <$> filter (λ x, P x ∧ x ≠ sel) l).
Proof.
  intros Hsel. induction l as [|x l IH]; [done|].
  destruct (decide (P x)) as [HP|HP].
  - rewrite (filter_cons_True P) by done.
    destruct (decide (x = sel)) as [->|Hne].
    + rewrite (filter_cons_False (λ x, P x ∧ x ≠ sel)) by tauto.
      rewrite fmap_cons, Hsel. by rewrite filter_cons_False.
    + rewrite (filter_cons_True (λ x, P x ∧ x ≠ sel)) by done.
      rewrite !fmap_cons, !filter_cons, IH. done.
  - rewrite (filter_cons_False P) by done.
    by rewrite (filter_cons_False (λ x, P x ∧ x ≠ sel)) by tauto.
Qed.

Lemma concat_filter_truthy {A} (ls : list (list A)) :
  concat (filter (λ l, truthy l = true) ls) = concat ls.
Proof.
  induction ls as [|l ls IH]; [done|].
  destruct l as [|x l].
  - by rewrite filter_cons_False.
  - rewrite filter_cons_True by done. simpl. by rewrite IH.
Qed.

(** The page loop after a selected extractor that found nothing, where
    it returns: every compatible extractor has been run and has returned,
    and the lists collected are the non-empty ones among the results of
    the compatible extractors other than the selected one, in the order
    of [create_extractors]. *)
Lemma collect_page_tables_fallback_Ok (w : World) (pdf_path : string)
    (page_num : Z) (sel : Extractor) (page_tables : list (list Pandas.DataFrame)) :
  get_best_extractor w pdf_path = Ok sel →
  extract_tables w sel pdf_path page_num = Ok [] →
  collect_page_tables w pdf_path page_num = Ok page_tables →
  (∀ e, compatible w pdf_path e = true →
     extract_tables w e pdf_path page_num = Ok (extracted w pdf_path page_num e))
  ∧ page_tables
    = filter (λ l, truthy l = true)
        (extracted w pdf_path page_num
           <$> filter (λ e, compatible w pdf_path e = true ∧ e ≠ sel)
                 create_extractors).
Proof.
  intros Hbest Hsel. unfold collect_page_tables.
  rewrite Hbest. cbn [bind]. rewrite Hsel. cbn [bind truthy negb].
  intros [Hes ->]%for_each_try_extractor_Ok. split.
  - intros e. apply Hes. destruct e; set_solver.
  - rewrite app_nil_l. apply filter_truthy_skip.
    unfold extracted. by rewrite Hsel.
Qed.

(** C5. The fallback loop runs the PyMuPDF adapter first, and nothing
    catches what it raises. On a page where PyMuPDF detects a table, the
    selected extractor (Camelot) finds nothing and Tabula would find a
    table, [extract_all_tables] stops with [AttributeError] instead of
    going on to Tabula. Where no extractor raises the loop does what the
    claim says: on the same page without a detected region the table of
    Tabula is returned, and whenever the page loop returns after a
    selected extractor that found nothing, every compatible extractor has
    returned and the tables handed to [combine_tables] are those of the
    compatible extractors other than the selected one. *)
Theorem extract_all_tables_fallback :
  get_best_extractor (tabula_world [detected_page] (Ok ())) "doc.pdf"
  = Ok CamelotTableExtractor
  ∧ extract_tables (tabula_world [detected_page] (Ok ()))
      CamelotTableExtractor "doc.pdf" 0 = Ok []
  ∧ is_compatible (tabula_world [detected_page] (Ok ()))
      TabulaTableExtractor "doc.pdf" = Ok true
  ∧ extract_tables (tabula_world [detected_page] (Ok ()))
      TabulaTableExtractor "doc.pdf" 0 = Ok [tabula_item_table]
  ∧ extract_tables (tabula_world [detected_page] (Ok ()))
      PyMuPDFTableExtractor "doc.pdf" 0 = Raise AttributeError
  ∧ extract_all_tables (tabula_world [detected_page] (Ok ())) "doc.pdf" None
    = Raise AttributeError
  ∧ extract_all_tables (tabula_world [plain_page] (Ok ())) "doc.pdf" None
    = Ok [tabula_item_table_page0]
  ∧ (∀ w pdf_path doc page_num sel page_tables all_tables,
       (page_num < Z.of_nat (length doc))%Z →
       get_best_extractor w pdf_path = Ok sel →
       extract_tables w sel pdf_path page_num = Ok [] →
       collect_page_tables w pdf_path page_num = Ok page_tables →
       (∀ e, compatible w pdf_path e = true →
          extract_tables w e pdf_path page_num
          = Ok (extracted w pdf_path page_num e))
       ∧ concat page_tables
         = concat (extracted w pdf_path page_num
                     <$> filter (λ e, compatible w pdf_path e = true ∧ e ≠ sel)
                           create_extractors)
       ∧ extract_page w pdf_path doc all_tables page_num
         = Ok (all_tables
               ++ (Pandas.set_attrs {[ "page" := page_num ]}
                     <$> combine_tables w page_tables))).
Proof.
  repeat (split; [vm_compute; reflexivity|]).
  intros w pdf_path doc page_num sel page_tables all_tables Hlt Hbest Hsel Hrun.
  destruct (collect_page_tables_fallback_Ok _ _ _ _ _ Hbest Hsel Hrun)
    as [Hes Heq].
  split; [done|]. split.
  - rewrite Heq. apply concat_filter_truthy.
  - unfold extract_page. rewrite (proj2 (Z.leb_gt _ _)) by lia.
    by rewrite Hrun.
Qed.

(** ** Requested pages and page tags *)

Lemma extract_page_skip (w : World) (pdf_path : string) (doc : Fitz.Document)
    (all_tables : list Pandas.DataFrame) (page_num : Z) :
  (Z.of_nat (length doc) ≤ page_num)%Z →
  extract_page w pdf_path doc all_tables page_num = Ok all_tables.
Proof.
  intros Hge. unfold extract_page. by rewrite (proj2 (Z.leb_le _ _)).
Qed.

Lemma for_each_extract_page_filter (w : World) (pdf_path : string)
    (doc : Fitz.Document) (l : list Z) (acc : list Pandas.DataFrame) :
  for_each (extract_page w pdf_path doc) l acc
  = for_each (extract_page w pdf_path doc)
      (filter (λ p, (p < Z.of_nat (length doc))%Z) l) acc.
Proof.
  revert acc. induction l as [|p l IH]; intros acc; [done|].
  destruct (decide (p < Z.of_nat (length doc))%Z) as [Hlt|Hge].
  - rewrite filter_cons_True by done. simpl.
    destruct (extract_page w pdf_path doc acc p); simpl; [apply IH|done].
  - rewrite filter_cons_False by done. simpl.
    rewrite extract_page_skip by lia. simpl. apply IH.
Qed.

Lemma extract_page_tags (w : World) (pdf_path : string) (doc : Fitz.Document)
    (acc acc' : list Pandas.DataFrame) (p : Z) (t : Pandas.DataFrame) :
  extract_page w pdf_path doc acc p = Ok acc' → t ∈ acc' →
  t ∈ acc ∨ ((p < Z.of_nat (length doc))%Z
             ∧ Pandas.attrs t = {[ "page" := p ]}).
Proof.
  unfold extract_page.
  destruct (Z.leb_spec (Z.of_nat (length doc)) p) as [Hge|Hlt].
  - intros [= <-]. by left.
  - intros (page_tables & _ & [= <-])%bind_Ok.
    intros [Ht|(u & -> & _)%list_elem_of_fmap]%elem_of_app; [by left|].
    right. split; [lia|done].
Qed.

Lemma for_each_extract_page_tags (w : World) (pdf_path : string)
    (doc : Fitz.Document) (l : list Z) (acc r : list Pandas.DataFrame)
    (t : Pandas.DataFrame) :
  for_each (extract_page w pdf_path doc) l acc = Ok r → t ∈ r →
  t ∈ acc ∨ ∃ p, p ∈ l ∧ (p < Z.of_nat (length doc))%Z
                 ∧ Pandas.attrs t = {[ "page" := p ]}.
Proof.
  revert acc. induction l as [|p l IH]; intros acc; simpl.
  { intros [= <-]. by left. }
  intros (acc' & Hpage & Hrest)%bind_Ok Ht.
  destruct (IH _ Hrest Ht) as [Hacc'|(q & Hq & Hlt & Htag)].
  - destruct (extract_page_tags _ _ _ _ _ _ _ Hpage Hacc') as [?|[Hlt Htag]];
      [by left|].
    right. exists p. split; [left|done].
  - right. exists q. split; [by right|done].
Qed.

(** C10, as stated, fails: with the requested page list [-1] nothing is
    skipped, PyMuPDF reads the last page, and the table in the result is
    tagged with page -1, which is no 0-based page of the one-page
    document. *)
Lemma extract_all_tables_negative_page :
  length scanned_doc = 1%nat
  ∧ extract_all_tables (demo_world scanned_doc false false) "doc.pdf"
      (Some [(-1)%Z])
    = Ok [Pandas.set_attrs {[ "page" := (-1)%Z ]} item_table].
Proof. split; [reflexivity|]. vm_compute. reflexivity. Qed.

(** C10, amended. A requested page index from the page count on is
    skipped: the loop body returns the tables collected so far, so the
    run is the run on the requested indices below the page count. Every
    table of the result is tagged with one requested index below the
    page count, which is a valid 0-based page whenever the requested
    indices are not negative. *)
Theorem extract_all_tables_page_tags (w : World) (pdf_path : string)
    (page_nums : option (list Z)) (doc : Fitz.Document)
    (tables : list Pandas.DataFrame) :
  fitz_open w pdf_path = Ok doc →
  extract_all_tables w pdf_path page_nums = Ok tables →
  (∀ all_tables p, (Z.of_nat (length doc) ≤ p)%Z →
     extract_page w pdf_path doc all_tables p = Ok all_tables)
  ∧ for_each (extract_page w pdf_path doc)
      (filter (λ p, (p < Z.of_nat (length doc))%Z)
         (requested_pages doc page_nums)) []
    = Ok tables
  ∧ (∀ t, t ∈ tables →
       ∃ p, p ∈ requested_pages doc page_nums
            ∧ (p < Z.of_nat (length doc))%Z
            ∧ Pandas.attrs t = {[ "page" := p ]})
  ∧ ((∀ q, q ∈ requested_pages doc page_nums → (0 ≤ q)%Z) →
     ∀ t, t ∈ tables →
       ∃ p, (0 ≤ p < Z.of_nat (length doc))%Z
            ∧ Pandas.attrs t !! "page" = Some p).
Proof.
  intros Hopen. unfold extract_all_tables. rewrite Hopen. cbn [bind].
  intros Hrun.
  assert (∀ t, t ∈ tables →
            ∃ p, p ∈ requested_pages doc page_nums
                 ∧ (p < Z.of_nat (length doc))%Z
                 ∧ Pandas.attrs t = {[ "page" := p ]}) as Htags.
  { intros t Ht.
    destruct (for_each_extract_page_tags _ _ _ _ _ _ _ Hrun Ht) as [Hnil|?];
      [by apply elem_of_nil in Hnil|done]. }
  split; [intros all_tables p; apply extract_page_skip|].
  split; [by rewrite <-for_each_extract_page_filter|].
  split; [done|].
  intros Hnonneg t Ht. destruct (Htags t Ht) as (p & Hp & Hlt & Htag).
  exists p. split; [split; [by apply Hnonneg|done]|].
  rewrite Htag. apply lookup_singleton_eq.
Qed.

Lemma extract_all_tables_page_tags_witness :
  extract_all_tables (demo_world scanned_doc false false) "doc.pdf"
    (Some [0%Z; 5%Z])
  = Ok [item_table_page0]
  ∧ ∀ t, t ∈ [item_table_page0] →
      ∃ p, (0 ≤ p < Z.of_nat (length scanned_doc))%Z
           ∧ Pandas.attrs t !! "page" = Some p.
Proof.
  assert (extract_all_tables (demo_world scanned_doc false false) "doc.pdf"
            (Some [0%Z; 5%Z]) = Ok [item_table_page0]) as Hrun
    by (vm_compute; reflexivity).
  split; [exact Hrun|].
  apply (extract_all_tables_page_tags (demo_world scanned_doc false false)
           "doc.pdf" (Some [0%Z; 5%Z]) scanned_doc [item_table_page0]
           eq_refl Hrun).
  intros q Hq. simpl in Hq.
  repeat (apply elem_of_cons in Hq as [->|Hq]; [lia|]).
  by apply elem_of_nil in Hq.
Defined.



(** * Further properties of the code *)

(** ** The two passes of Camelot and Tabula *)

(** X1. When the lattice pass of Camelot finds tables and the first has an
    accuracy of at least 80, the adapter returns the frames of the lattice
    pass; the stream pass is not consulted, so its outcome, a failure
    included, does not matter. *)
Theorem camelot_keeps_accurate_lattice (w : World) (pdf_path : string)
    (page_num : Z) (t0 : CamelotTable) (ts : list CamelotTable) :
  camelot_read_pdf w pdf_path (pretty (page_num + 1)%Z) Lattice = Ok (t0 :: ts) →
  (80 <= accuracy t0)%Q →
  camelot_extract_tables w pdf_path page_num = Ok (df <$> t0 :: ts).
Proof.
  intros Hlattice Hacc. unfold camelot_extract_tables. rewrite Hlattice.
  cbn [bind]. unfold Qltb.
  rewrite (proj2 (Qle_bool_iff _ _) Hacc). done.
Qed.

Lemma camelot_keeps_accurate_lattice_witness :
  camelot_extract_tables (camelot_world 95 (Raise (OtherError "stream")))
    "doc.pdf" 0
  = Ok [item_table].
Proof.
  apply (camelot_keeps_accurate_lattice
           (camelot_world 95 (Raise (OtherError "stream"))) "doc.pdf" 0
           {| df := item_table; accuracy := 95 |} []).
  - reflexivity.
  - vm_compute. discriminate.
Defined.

(** X2. When the lattice pass finds nothing, or its first table has an
    accuracy below 80, and the stream pass then fails, the adapter returns
    no table at all: what the lattice pass had found is lost. *)
Theorem camelot_stream_failure_loses_lattice (w : World) (pdf_path : string)
    (page_num : Z) (tables : list CamelotTable) (e : exn) :
  camelot_read_pdf w pdf_path (pretty (page_num + 1)%Z) Lattice = Ok tables →
  (∀ t0, head tables = Some t0 → (accuracy t0 < 80)%Q) →
  camelot_read_pdf w pdf_path (pretty (page_num + 1)%Z) Stream = Raise e →
  camelot_extract_tables w pdf_path page_num = Ok [].
Proof.
  intros Hlattice Hacc Hstream. unfold camelot_extract_tables.
  rewrite Hlattice. cbn [bind].
  destruct tables as [|t0 ts].
  - by rewrite Hstream.
  - specialize (Hacc t0 eq_refl). unfold Qltb at 1.
    destruct (Qle_bool 80 (accuracy t0)) eqn:Hle.
    + apply Qle_bool_iff in Hle. exfalso. by eapply Qlt_not_le.
    + simpl. by rewrite Hstream.
Qed.

Lemma camelot_stream_failure_loses_lattice_witness :
  camelot_read_pdf (camelot_world 40 (Raise (OtherError "stream"))) "doc.pdf"
    (pretty (0 + 1)%Z) Lattice
  = Ok [{| df := item_table; accuracy := 40 |}]
  ∧ camelot_extract_tables (camelot_world 40 (Raise (OtherError "stream")))
      "doc.pdf" 0
    = Ok [].
Proof.
  split; [reflexivity|].
  apply (camelot_stream_failure_loses_lattice
           (camelot_world 40 (Raise (OtherError "stream"))) "doc.pdf" 0
           [{| df := item_table; accuracy := 40 |}] (OtherError "stream")).
  - reflexivity.
  - intros t0 [= <-]. reflexivity.
  - reflexivity.
Defined.

(** X3. When both passes of Camelot return, the adapter returns the frames
    of one pass as a whole, never a mixture; an empty stream pass, or a
    stream pass whose first table is not strictly more accurate than the
    first lattice table, leaves the lattice pass in place. *)
Theorem camelot_one_pass_as_a_whole (w : World) (pdf_path : string)
    (page_num : Z) (tables stream_tables : list CamelotTable) :
  camelot_read_pdf w pdf_path (pretty (page_num + 1)%Z) Lattice = Ok tables →
  camelot_read_pdf w pdf_path (pretty (page_num + 1)%Z) Stream = Ok stream_tables →
  (camelot_extract_tables w pdf_path page_num = Ok (df <$> tables)
   ∨ camelot_extract_tables w pdf_path page_num = Ok (df <$> stream_tables))
  ∧ (stream_tables = [] →
     camelot_extract_tables w pdf_path page_num = Ok (df <$> tables))
  ∧ (∀ t0 s0, head tables = Some t0 → head stream_tables = Some s0 →
       (accuracy s0 <= accuracy t0)%Q →
       camelot_extract_tables w pdf_path page_num = Ok (df <$> tables)).
Proof.
  intros Hlattice Hstream. unfold camelot_extract_tables.
  rewrite Hlattice. cbn [bind].
  destruct tables as [|t0 ts].
  - rewrite Hstream. destruct stream_tables as [|s0 ss]; simpl.
    + split; [by left|]. split; [done|]. by intros t0 s0 [=].
    + split; [by right|]. split; [done|]. by intros t0 s0' [=].
  - destruct (Qltb (accuracy t0) 80).
    + rewrite Hstream. destruct stream_tables as [|s0 ss]; simpl.
      * split; [by left|]. split; [done|]. by intros t0' s0 _ [=].
      * unfold Qltb. destruct (Qle_bool (accuracy s0) (accuracy t0)) eqn:Hle;
          simpl.
        -- split; [by left|]. split; [done|]. done.
        -- split; [by right|]. split; [done|].
           intros t0' s0' [= <-] [= <-] Hle'.
           apply Qle_bool_iff in Hle'. congruence.
    + simpl. split; [by left|]. split; done.
Qed.

Lemma camelot_one_pass_as_a_whole_witness :
  camelot_extract_tables
    (camelot_world 40 (Ok [{| df := tabula_item_table; accuracy := 40 |}]))
    "doc.pdf" 0
  = Ok [item_table].
Proof.
  destruct (camelot_one_pass_as_a_whole
              (camelot_world 40
                 (Ok [{| df := tabula_item_table; accuracy := 40 |}]))
              "doc.pdf" 0
              [{| df := item_table; accuracy := 40 |}]
              [{| df := tabula_item_table; accuracy := 40 |}]
              eq_refl eq_refl) as (_ & _ & Htie).
  apply (Htie {| df := item_table; accuracy := 40 |}
              {| df := tabula_item_table; accuracy := 40 |});
    [reflexivity|reflexivity|].
  vm_compute. discriminate.
Defined.

(** X4. Tabula's stream pass is a fallback only: tables found by the
    lattice pass are returned as they are, whatever the stream pass would
    do; after an empty lattice pass the adapter returns what the stream
    pass returns, and no table when it fails. *)
Theorem tabula_lattice_first (w : World) (pdf_path : string) (page_num : Z) :
  (∀ t ts, tabula_read_pdf w pdf_path (page_num + 1)%Z Lattice = Ok (t :: ts) →
     tabula_extract_tables w pdf_path page_num = Ok (t :: ts))
  ∧ (∀ tables,
       tabula_read_pdf w pdf_path (page_num + 1)%Z Lattice = Ok [] →
       tabula_read_pdf w pdf_path (page_num + 1)%Z Stream = Ok tables →
       tabula_extract_tables w pdf_path page_num = Ok tables)
  ∧ (∀ e,
       tabula_read_pdf w pdf_path (page_num + 1)%Z Lattice = Ok [] →
       tabula_read_pdf w pdf_path (page_num + 1)%Z Stream = Raise e →
       tabula_extract_tables w pdf_path page_num = Ok [])
  ∧ (∀ e, tabula_read_pdf w pdf_path (page_num + 1)%Z Lattice = Raise e →
       tabula_extract_tables w pdf_path page_num = Ok []).
Proof.
  unfold tabula_extract_tables. repeat split.
  - by intros t ts ->.
  - by intros tables -> ->.
  - by intros e -> ->.
  - by intros e ->.
Qed.

(** ** More on reconciliation *)

Lemma signature_shape_corner (w : World) (t u : Pandas.DataFrame) :
  Pandas.shape t = Pandas.shape u → corner t = corner u →
  signature w t = signature w u.
Proof.
  intros Hshape Hcorner.
  unfold signature, shape_sig, data_sig. fold (corner t) (corner u).
  by rewrite Hshape, Hcorner.
Qed.

Lemma NoDup_fmap_eq {A B} (f : A → B) (l : list A) (x y : A) :
  NoDup (f <$> l) → x ∈ l → y ∈ l → f x = f y → x = y.
Proof.
  induction l as [|a l IH]; intros Hnd Hx Hy Hf.
  { by apply elem_of_nil in Hx. }
  rewrite fmap_cons in Hnd. apply NoDup_cons in Hnd as [Ha Hnd].
  apply elem_of_cons in Hx as [->|Hx]; apply elem_of_cons in Hy as [->|Hy].
  - done.
  - exfalso. apply Ha. rewrite Hf. by apply list_elem_of_fmap_2.
  - exfalso. apply Ha. rewrite <-Hf. by apply list_elem_of_fmap_2.
  - by apply IH.
Qed.

(** X7. The reconciled tables hold at most one table per shape and 3x3
    corner: column labels, attributes and the cells outside the corner
    play no part, so two candidates that agree on shape and corner are
    never both returned. *)
Theorem combine_tables_one_per_corner (w : World)
    (all_tables : list (list Pandas.DataFrame)) (t u : Pandas.DataFrame) :
  t ∈ combine_tables w all_tables → u ∈ combine_tables w all_tables →
  Pandas.shape t = Pandas.shape u → corner t = corner u →
  t = u.
Proof.
  intros Ht Hu Hshape Hcorner.
  apply (NoDup_fmap_eq (signature w) (combine_tables w all_tables)); try done.
  - rewrite combine_tables_spec. apply first_per_signature_NoDup.
  - by apply signature_shape_corner.
Qed.

Lemma combine_tables_one_per_corner_witness :
  corner_a ∈ combine_tables (demo_world [] false false) [[corner_a]; [corner_b]]
  ∧ corner_b ∉ combine_tables (demo_world [] false false)
                 [[corner_a]; [corner_b]].
Proof.
  assert (corner_a ∈ combine_tables (demo_world [] false false)
                       [[corner_a]; [corner_b]]) as Ha
    by (vm_compute; left).
  split; [exact Ha|].
  intros Hb.
  assert (corner_a = corner_b) as Heq; [|discriminate Heq].
  apply (combine_tables_one_per_corner (demo_world [] false false)
           [[corner_a]; [corner_b]] corner_a corner_b Ha Hb);
    reflexivity.
Defined.

(** X8. Reconciliation keeps the order of the input and invents nothing:
    its result is a subsequence of the concatenated input lists; and when
    the non-empty candidates carry pairwise different signatures it
    returns all of them. *)
Theorem combine_tables_order (w : World)
    (all_tables : list (list Pandas.DataFrame)) :
  combine_tables w all_tables `sublist_of` concat all_tables
  ∧ (NoDup (signature w <$> candidates all_tables) →
     combine_tables w all_tables = candidates all_tables).
Proof.
  split.
  - etrans; [apply combine_tables_sublist|]. apply sublist_filter.
  - intros Hnd. rewrite combine_tables_spec.
    apply first_per_signature_id; [done|].
    intros t _. apply not_elem_of_empty.
Qed.

(** ** Which extractor runs *)

Lemma lstrip_nonempty (s : list N) :
  Nat.ltb 0 (length (lstrip s)) = has_nonspace s.
Proof.
  induction s as [|c s IH]; [done|]. simpl.
  destruct (is_space c); simpl; [apply IH|done].
Qed.

Lemma has_nonspace_lstrip (s : list N) :
  has_nonspace (lstrip s) = has_nonspace s.
Proof.
  induction s as [|c s IH]; [done|]. simpl.
  destruct (is_space c) eqn:Hc; simpl; [apply IH|by rewrite Hc].
Qed.

Lemma has_nonspace_reverse (s : list N) :
  has_nonspace (reverse s) = has_nonspace s.
Proof.
  unfold has_nonspace. induction s as [|c s IH]; [done|].
  rewrite reverse_cons, existsb_app, IH. simpl.
  rewrite orb_false_r. apply orb_comm.
Qed.

(** What is left by [strip] is not empty exactly when the text has a
    character that is not white space. *)
Lemma strip_nonempty (s : list N) :
  Nat.ltb 0 (length (strip s)) = has_nonspace s.
Proof.
  unfold strip. rewrite length_reverse, lstrip_nonempty.
  by rewrite has_nonspace_reverse, has_nonspace_lstrip.
Qed.

Lemma getitem_first (doc : Fitz.Document) (page : Fitz.Page) :
  Fitz.getitem doc 0 = Ok page ↔ doc !! 0%nat = Some page.
Proof.
  unfold Fitz.getitem. destruct doc as [|p0 doc]; simpl; [done|].
  split; by intros [= ->].
Qed.

Lemma camelot_is_compatible_true (w : World) (pdf_path : string) :
  camelot_is_compatible w pdf_path = Ok true
  ↔ ∃ doc page, fitz_open w pdf_path = Ok doc
                ∧ doc !! 0%nat = Some page
                ∧ has_nonspace (Fitz.get_text page) = true.
Proof.
  unfold camelot_is_compatible.
  destruct (fitz_open w pdf_path) as [doc|e]; simpl.
  - destruct (Fitz.getitem doc 0) as [page|e] eqn:Hpage; simpl.
    + rewrite strip_nonempty. apply getitem_first in Hpage. split.
      * intros [= Htext]. by exists doc, page.
      * intros (doc' & page' & [= <-] & Hpage' & Htext). congruence.
    + split; [done|]. intros (doc' & page' & [= <-] & Hpage' & _).
      apply getitem_first in Hpage'. congruence.
  - split; [done|]. by intros (doc' & page' & [=] & _).
Qed.

(** X9. The probe of Camelot answers true exactly when the document
    opens, has a first page, and the text of that page has a character
    that is not white space, the white space being that of
    [str.strip()]; Camelot is the extractor selected exactly when this
    holds and the probe of Tabula returns, whatever it answers. *)
Theorem camelot_selected_iff_text (w : World) (pdf_path : string) :
  (is_compatible w CamelotTableExtractor pdf_path = Ok true
   ↔ ∃ doc page, fitz_open w pdf_path = Ok doc
                 ∧ doc !! 0%nat = Some page
                 ∧ has_nonspace (Fitz.get_text page) = true)
  ∧ (get_best_extractor w pdf_path = Ok CamelotTableExtractor
     ↔ (∃ t, is_compatible w TabulaTableExtractor pdf_path = Ok t)
       ∧ ∃ doc page, fitz_open w pdf_path = Ok doc
                     ∧ doc !! 0%nat = Some page
                     ∧ has_nonspace (Fitz.get_text page) = true).
Proof.
  split; [apply camelot_is_compatible_true|].
  rewrite <-camelot_is_compatible_true, get_best_extractor_cases.
  unfold compatible. simpl.
  destruct (tabula_is_compatible w pdf_path) as [t|e].
  - destruct (camelot_is_compatible_total w pdf_path) as [c ->].
    destruct c.
    + split; [eauto|done].
    + split; [by destruct t|]. by intros [_ [=]].
  - split; [done|]. by intros [[t [=]] _].
Qed.

(** A first page that holds only an ideographic space, a no-break space
    and a next-line character has no text for the probe; with one letter
    it has. *)
Example camelot_is_compatible_unicode_space :
  is_compatible
    (demo_world [{| Fitz.get_text := [12288; 160; 133]%N;
                    Fitz.get_text_blocks := [];
                    Fitz.find_tables := [] |}] true true)
    CamelotTableExtractor "doc.pdf" = Ok false
  ∧ is_compatible
      (demo_world [{| Fitz.get_text := [12288; 97; 133]%N;
                      Fitz.get_text_blocks := [];
                      Fitz.find_tables := [] |}] true true)
      CamelotTableExtractor "doc.pdf" = Ok true.
Proof. split; reflexivity. Qed.

(** Where the PyMuPDF adapter yields no table on a page, the collection
    built for that page is empty, or it is the single non-empty list
    returned by Camelot or by Tabula. *)
Lemma collect_page_tables_cases (w : World) (pdf_path : string)
    (page_num : Z) (page_tables : list (list Pandas.DataFrame)) :
  (∀ l, extract_tables w PyMuPDFTableExtractor pdf_path page_num = Ok l →
        l = []) →
  collect_page_tables w pdf_path page_num = Ok page_tables →
  page_tables = []
  ∨ ∃ e l, e ≠ PyMuPDFTableExtractor
           ∧ is_compatible w e pdf_path = Ok true
           ∧ extract_tables w e pdf_path page_num = Ok l
           ∧ l ≠ []
           ∧ page_tables = [l].
Proof.
  intros Hpy Hrun.
  assert (∃ sel, get_best_extractor w pdf_path = Ok sel) as [sel Hbest].
  { unfold collect_page_tables in Hrun.
    destruct (get_best_extractor w pdf_path) as [sel|e]; [eauto|done]. }
  destruct (get_best_extractor_Ok _ _ _ Hbest) as [Hprobes Hsel].
  assert (∃ tables, extract_tables w sel pdf_path page_num = Ok tables)
    as [tables Htables].
  { unfold collect_page_tables in Hrun. rewrite Hbest in Hrun.
    cbn [bind] in Hrun.
    destruct (extract_tables w sel pdf_path page_num) as [l|e]; [eauto|done]. }
  destruct tables as [|t ts].
  - destruct (collect_page_tables_fallback_Ok _ _ _ _ _ Hbest Htables Hrun)
      as [Hes ->].
    assert (compatible w pdf_path PyMuPDFTableExtractor = true) as Hp by done.
    assert (extracted w pdf_path page_num PyMuPDFTableExtractor = []) as Hpe
      by (apply Hpy, Hes, Hp).
    unfold create_extractors.
    destruct (compatible w pdf_path CamelotTableExtractor) eqn:Hc.
    + (* Camelot is the selected extractor *)
      subst sel.
      rewrite filter_cons_True by done.
      rewrite filter_cons_False by (intros [_ Hne]; by apply Hne).
      rewrite fmap_cons, Hpe, filter_cons_False by done.
      destruct (compatible w pdf_path TabulaTableExtractor) eqn:Ht.
      * rewrite filter_cons_True by done. rewrite filter_nil.
        rewrite fmap_cons, fmap_nil.
        pose proof (Hes TabulaTableExtractor Ht) as Hrun_t.
        destruct (extracted w pdf_path page_num TabulaTableExtractor)
          as [|u us]; [by left|].
        right. exists TabulaTableExtractor, (u :: us).
        rewrite Hprobes, Ht, filter_cons_True by done. by rewrite filter_nil.
      * rewrite filter_cons_False by (intros [? _]; congruence). by left.
    + destruct (compatible w pdf_path TabulaTableExtractor) eqn:Ht; subst sel.
      * rewrite filter_cons_True by done.
        rewrite filter_cons_False by (intros [? _]; congruence).
        rewrite filter_cons_False by (intros [_ Hne]; by apply Hne).
        rewrite filter_nil, fmap_cons, Hpe. by left.
      * rewrite filter_cons_False by (intros [_ Hne]; by apply Hne).
        rewrite filter_cons_False by (intros [? _]; congruence).
        rewrite filter_cons_False by (intros [? _]; congruence). by left.
  - right. exists sel, (t :: ts).
    assert (sel ≠ PyMuPDFTableExtractor) as Hne.
    { intros ->. by apply Hpy in Htables. }
    split; [done|]. split; [|split; [done|split; [done|]]].
    + rewrite Hprobes. f_equal.
      destruct (compatible w pdf_path CamelotTableExtractor) eqn:Hc;
        [by subst sel|].
      destruct (compatible w pdf_path TabulaTableExtractor) eqn:Ht;
        by subst sel.
    + unfold collect_page_tables in Hrun. rewrite Hbest in Hrun.
      cbn [bind] in Hrun. rewrite Htables in Hrun. by injection Hrun as <-.
Qed.

(** ** The candidates of a page and their order *)

(** C1. The signature of a candidate is its shape followed by numpy's
    string of the flattened block of at most 3 rows and 3 columns; the
    reconciled tables carry pairwise different signatures; each of them
    is the first non-empty candidate with its signature in the order in
    which the candidates are met, list after list; and every non-empty
    candidate has its signature represented in the result. In the
    collection that the page loop builds, where the PyMuPDF adapter
    yields no table, there is one list at most: the candidates of a page
    are those of one backend, met in that backend's own order. *)
Theorem combine_tables_dedup (w : World) (all_tables : list (list Pandas.DataFrame)) :
  (∀ t, signature w t
        = (pretty (length (Pandas.values t)) +:+ "x"
           +:+ pretty (length (Pandas.columns t))) +:+ ":"
          +:+ np_str w (concat (take (Nat.min 3 (length (Pandas.columns t)))
                                  <$> take 3 (Pandas.values t))))
  ∧ NoDup (signature w <$> combine_tables w all_tables)
  ∧ (∀ t, t ∈ combine_tables w all_tables →
       ∃ l1 l2, candidates all_tables = l1 ++ t :: l2
                ∧ ∀ u, u ∈ l1 → signature w u ≠ signature w t)
  ∧ (∀ t, t ∈ candidates all_tables →
       ∃ t', t' ∈ combine_tables w all_tables
             ∧ signature w t' = signature w t)
  ∧ (∀ pdf_path page_num page_tables,
       (∀ l, extract_tables w PyMuPDFTableExtractor pdf_path page_num = Ok l →
             l = []) →
       collect_page_tables w pdf_path page_num = Ok page_tables →
       (length page_tables ≤ 1)%nat).
Proof.
  split; [|rewrite combine_tables_spec; split; [|split; [|split]]].
  - intros t. unfold signature, shape_sig, data_sig, sample, Pandas.flatten,
      Pandas.iloc_block, Pandas.shape. cbn [fst snd Pandas.values].
    by rewrite take_min_length.
  - apply first_per_signature_NoDup.
  - intros t. apply first_per_signature_first.
  - intros t Ht.
    destruct (first_per_signature_covers w ∅ _ _ Ht) as [Hin|?]; [|done].
    by apply not_elem_of_empty in Hin.
  - intros pdf_path page_num page_tables Hpy Hrun.
    destruct (collect_page_tables_cases _ _ _ _ Hpy Hrun)
      as [->|(e & l & _ & _ & _ & _ & ->)]; simpl; lia.
Qed.

(** X5. Where the PyMuPDF adapter yields no table on a page, the
    collection handed to [combine_tables] for that page holds the tables
    of one extractor at most: it is empty, or it is the single non-empty
    list returned by Camelot or by Tabula, and the reconciled tables of
    the page are then a subsequence of that list. *)
Theorem collect_page_tables_one_backend (w : World) (pdf_path : string)
    (page_num : Z) (page_tables : list (list Pandas.DataFrame)) :
  (∀ l, extract_tables w PyMuPDFTableExtractor pdf_path page_num = Ok l →
        l = []) →
  collect_page_tables w pdf_path page_num = Ok page_tables →
  page_tables = []
  ∨ ∃ e l, e ≠ PyMuPDFTableExtractor
           ∧ is_compatible w e pdf_path = Ok true
           ∧ extract_tables w e pdf_path page_num = Ok l
           ∧ l ≠ []
           ∧ page_tables = [l]
           ∧ combine_tables w page_tables `sublist_of` l.
Proof.
  intros Hpy Hrun.
  destruct (collect_page_tables_cases _ _ _ _ Hpy Hrun)
    as [->|(e & l & Hne & Hc & Hl & Hnil & ->)]; [by left|].
  right. exists e, l. repeat split; try done.
  etrans; [apply combine_tables_sublist|].
  unfold candidates. simpl. rewrite app_nil_r. apply sublist_filter.
Qed.

Lemma collect_page_tables_one_backend_witness :
  [[tabula_item_table]] = []
  ∨ ∃ e l, e ≠ PyMuPDFTableExtractor
           ∧ is_compatible (tabula_world [plain_page] (Ok ())) e "doc.pdf"
             = Ok true
           ∧ extract_tables (tabula_world [plain_page] (Ok ())) e "doc.pdf" 0
             = Ok l
           ∧ l ≠ []
           ∧ [[tabula_item_table]] = [l]
           ∧ combine_tables (tabula_world [plain_page] (Ok ()))
               [[tabula_item_table]] `sublist_of` l.
Proof.
  apply (collect_page_tables_one_backend (tabula_world [plain_page] (Ok ()))
           "doc.pdf" 0 [[tabula_item_table]]).
  - intros l Hl. vm_compute in Hl. by injection Hl as <-.
  - vm_compute. reflexivity.
Defined.

(** X10. When the selected extractor finds at least one table on a page,
    no other extractor is run for that page: the lists handed to
    [combine_tables] hold the tables of the selected extractor only. *)
Theorem collect_page_tables_selected_only (w : World) (pdf_path : string)
    (page_num : Z) (sel : Extractor) (t : Pandas.DataFrame)
    (ts : list Pandas.DataFrame) :
  get_best_extractor w pdf_path = Ok sel →
  extract_tables w sel pdf_path page_num = Ok (t :: ts) →
  collect_page_tables w pdf_path page_num = Ok [t :: ts].
Proof.
  intros Hbest Hsel. unfold collect_page_tables.
  rewrite Hbest. cbn [bind]. by rewrite Hsel.
Qed.

Lemma collect_page_tables_selected_only_witness :
  get_best_extractor (camelot_world 95 (Ok [])) "doc.pdf"
  = Ok CamelotTableExtractor
  ∧ extracted (camelot_world 95 (Ok [])) "doc.pdf" 0 TabulaTableExtractor
    = [tabula_item_table]
  ∧ collect_page_tables (camelot_world 95 (Ok [])) "doc.pdf" 0
    = Ok [[item_table]].
Proof.
  split; [reflexivity|]. split; [reflexivity|].
  apply (collect_page_tables_selected_only (camelot_world 95 (Ok []))
           "doc.pdf" 0 CamelotTableExtractor item_table []);
    vm_compute; reflexivity.
Defined.

(** ** The result of [extract_all_tables], page by page *)

Lemma for_each_app {A S} (body : S → A → exc S) (l1 l2 : list A) (s : S) :
  for_each body (l1 ++ l2) s = bind (for_each body l1 s) (for_each body l2).
Proof.
  revert s. induction l1 as [|a l1 IH]; intros s; simpl; [done|].
  destruct (body s a); simpl; [apply IH|done].
Qed.

Lemma extract_page_acc (w : World) (pdf_path : string) (doc : Fitz.Document)
    (acc : list Pandas.DataFrame) (p : Z) :
  extract_page w pdf_path doc acc p
  = bind (extract_page w pdf_path doc [] p) (λ r, Ok (acc ++ r)).
Proof.
  unfold extract_page. destruct (Z.leb _ _); simpl.
  { by rewrite app_nil_r. }
  by destruct (collect_page_tables w pdf_path p).
Qed.

Lemma for_each_extract_page_acc (w : World) (pdf_path : string)
    (doc : Fitz.Document) (l : list Z) (acc : list Pandas.DataFrame) :
  for_each (extract_page w pdf_path doc) l acc
  = bind (for_each (extract_page w pdf_path doc) l []) (λ r, Ok (acc ++ r)).
Proof.
  revert acc. induction l as [|p l IH]; intros acc; simpl.
  { by rewrite app_nil_r. }
  rewrite extract_page_acc.
  destruct (extract_page w pdf_path doc [] p) as [r|e]; simpl; [|done].
  rewrite (IH (acc ++ r)), (IH r).
  destruct (for_each _ l []) as [r'|e]; simpl; [|done].
  by rewrite app_assoc.
Qed.

(** X11. The tables of a list of requested pages are those of its pages in
    the order of the request: the result for [l1 ++ l2] is the result for
    [l1] followed by the result for [l2]. Nothing is reconciled across
    pages; a page requested twice gives its tables twice. *)
Theorem extract_all_tables_app (w : World) (pdf_path : string)
    (l1 l2 : list Z) (r1 r2 : list Pandas.DataFrame) :
  extract_all_tables w pdf_path (Some l1) = Ok r1 →
  extract_all_tables w pdf_path (Some l2) = Ok r2 →
  extract_all_tables w pdf_path (Some (l1 ++ l2)) = Ok (r1 ++ r2).
Proof.
  unfold extract_all_tables.
  destruct (fitz_open w pdf_path) as [doc|e]; simpl; [|done].
  intros H1 H2. rewrite for_each_app, H1. cbn [bind].
  by rewrite for_each_extract_page_acc, H2.
Qed.

Lemma extract_all_tables_app_witness :
  extract_all_tables (demo_world scanned_doc false false) "doc.pdf"
    (Some ([0%Z] ++ [0%Z]))
  = Ok ([item_table_page0] ++ [item_table_page0]).
Proof.
  apply (extract_all_tables_app (demo_world scanned_doc false false)
           "doc.pdf" [0%Z] [0%Z] [item_table_page0] [item_table_page0]);
    vm_compute; reflexivity.
Defined.

Lemma extract_page_result (w : World) (pdf_path : string)
    (doc : Fitz.Document) (p : Z) (r : list Pandas.DataFrame) :
  extract_page w pdf_path doc [] p = Ok r →
  r = [] ∨ ∃ page_tables,
             r = Pandas.set_attrs {[ "page" := p ]}
                   <$> combine_tables w page_tables.
Proof.
  unfold extract_page. destruct (Z.leb _ _).
  - intros [= <-]. by left.
  - intros (page_tables & _ & [= <-])%bind_Ok. right. by exists page_tables.
Qed.

Lemma signature_set_attrs (w : World) (d : gmap string Z) (t : Pandas.DataFrame) :
  signature w (Pandas.set_attrs d t) = signature w t.
Proof. done. Qed.

Lemma empty_set_attrs (d : gmap string Z) (t : Pandas.DataFrame) :
  Pandas.empty (Pandas.set_attrs d t) = Pandas.empty t.
Proof. done. Qed.

(** X12. No table of the result is [empty]: every table returned by
    [extract_all_tables] has at least one row and one column. *)
Theorem extract_all_tables_nonempty (w : World) (pdf_path : string)
    (page_nums : option (list Z)) (tables : list Pandas.DataFrame)
    (t : Pandas.DataFrame) :
  extract_all_tables w pdf_path page_nums = Ok tables → t ∈ tables →
  Pandas.empty t = false.
Proof.
  unfold extract_all_tables.
  destruct (fitz_open w pdf_path) as [doc|e]; simpl; [|done].
  generalize (requested_pages doc page_nums). intros l. revert tables.
  induction l as [|p l IH]; intros tables; simpl.
  { intros [= <-] Ht. by apply elem_of_nil in Ht. }
  intros (r & Hpage & Hrest)%bind_Ok.
  rewrite for_each_extract_page_acc in Hrest.
  apply bind_Ok in Hrest as (r' & Hrest & [= <-]).
  intros [Ht|Ht]%elem_of_app; [|by apply (IH r')].
  destruct (extract_page_result _ _ _ _ _ Hpage) as [->|(page_tables & ->)].
  { by apply elem_of_nil in Ht. }
  apply list_elem_of_fmap in Ht as (u & -> & Hu).
  rewrite empty_set_attrs. apply (candidates_nonempty page_tables).
  eapply sublist_subseteq; [apply combine_tables_sublist|done].
Qed.

Lemma extract_all_tables_nonempty_witness :
  Pandas.empty item_table_page0 = false.
Proof.
  apply (extract_all_tables_nonempty (demo_world scanned_doc false false)
           "doc.pdf" None [item_table_page0] item_table_page0).
  - vm_compute. reflexivity.
  - left.
Defined.

Lemma filter_none {A} (P : A → Prop) `{!∀ x, Decision (P x)} (l : list A) :
  (∀ x, x ∈ l → ¬ P x) → filter P l = [].
Proof.
  induction l as [|x l IH]; intros Hnone; [done|].
  rewrite filter_cons_False by (apply Hnone; left).
  apply IH. intros y Hy. apply Hnone. by right.
Qed.

(** X13. When no page is requested twice, the tables of the result that
    carry the tag of one page have pairwise different signatures: the
    reconciliation done page by page survives in the final list. *)
Theorem extract_all_tables_page_signatures (w : World) (pdf_path : string)
    (l : list Z) (tables : list Pandas.DataFrame) (p : Z) :
  NoDup l →
  extract_all_tables w pdf_path (Some l) = Ok tables →
  NoDup (signature w
           <$> filter (λ t, Pandas.attrs t !! "page" = Some p) tables).
Proof.
  unfold extract_all_tables.
  destruct (fitz_open w pdf_path) as [doc|e]; simpl; [|done].
  intros Hnd. revert tables.
  induction l as [|q l IH]; intros tables; simpl.
  { intros [= <-]. constructor. }
  apply NoDup_cons in Hnd as [Hq Hnd].
  intros (r & Hpage & Hrest)%bind_Ok.
  rewrite for_each_extract_page_acc in Hrest.
  apply bind_Ok in Hrest as (r' & Hrest & [= <-]).
  rewrite filter_app, fmap_app.
  destruct (decide (q = p)) as [->|Hne].
  - assert (filter (λ t, Pandas.attrs t !! "page" = Some p) r' = []) as ->.
    { apply filter_none. intros t Ht Htag.
      destruct (for_each_extract_page_tags _ _ _ _ _ _ _ Hrest Ht)
        as [Hnil|(q' & Hq' & _ & Htag')]; [by apply elem_of_nil in Hnil|].
      rewrite Htag', lookup_singleton_eq in Htag.
      injection Htag as ->. done. }
    rewrite app_nil_r.
    destruct (extract_page_result _ _ _ _ _ Hpage) as [->|(page_tables & ->)].
    { constructor. }
    rewrite filter_all.
    + rewrite <-list_fmap_compose.
      rewrite (list_fmap_ext _ (signature w) (combine_tables w page_tables))
        by done.
      rewrite combine_tables_spec. apply first_per_signature_NoDup.
    + intros t (u & -> & _)%list_elem_of_fmap. apply lookup_singleton_eq.
  - assert (filter (λ t, Pandas.attrs t !! "page" = Some p) r = []) as ->.
    { apply filter_none. intros t Ht Htag.
      destruct (extract_page_result _ _ _ _ _ Hpage) as [->|(page_tables & ->)].
      { by apply elem_of_nil in Ht. }
      apply list_elem_of_fmap in Ht as (u & -> & _).
      simpl in Htag. rewrite lookup_singleton_eq in Htag. congruence. }
    by apply IH.
Qed.

Lemma extract_all_tables_page_signatures_witness :
  NoDup (signature (demo_world scanned_doc false false)
           <$> filter (λ t, Pandas.attrs t !! "page" = Some 0%Z)
                 [item_table_page0]).
Proof.
  apply (extract_all_tables_page_signatures (demo_world scanned_doc false false)
           "doc.pdf" [0%Z; 5%Z] [item_table_page0] 0%Z).
  - apply NoDup_cons. split; [|apply NoDup_singleton].
    intros Hin. apply list_elem_of_singleton in Hin. discriminate Hin.
  - vm_compute. reflexivity.
Defined.

(** ** Reading order of the free text *)

#[local] Instance at_height_dec (q : Q) (b : Fitz.Block) :
  Decision (at_height q b).
Proof. unfold at_height. apply _. Defined.

Lemma Qltb_lt (a b : Q) : Qltb a b = true ↔ (a < b)%Q.
Proof.
  unfold Qltb. rewrite negb_true_iff, <-not_true_iff_false, Qle_bool_iff.
  split; [apply Qnot_le_lt|apply Qlt_not_le].
Qed.

Lemma Qltb_ge (a b : Q) : Qltb a b = false ↔ (b <= a)%Q.
Proof. unfold Qltb. by rewrite negb_false_iff, Qle_bool_iff. Qed.

#[local] Instance above_trans : Transitive above.
Proof. intros a b c. unfold above. apply Qle_trans. Qed.

Lemma insert_block_sorted (b : Fitz.Block) (l : list Fitz.Block) :
  StronglySorted above l → StronglySorted above (insert_block b l).
Proof.
  induction l as [|c l IH]; intros Hs; simpl.
  { repeat constructor. }
  apply StronglySorted_cons in Hs as [Hc Hs].
  destruct (Qltb (Fitz.b_y0 c) (Fitz.b_y0 b)) eqn:Hlt.
  - apply StronglySorted_cons. split; [|by apply IH].
    rewrite insert_block_perm. constructor; [|done].
    apply Qltb_lt in Hlt. by apply Qlt_le_weak.
  - apply Qltb_ge in Hlt.
    apply StronglySorted_cons. split; [|by apply StronglySorted_cons].
    constructor; [done|].
    eapply Forall_impl; [exact Hc|]. intros x Hx. by trans c.
Qed.

Lemma sort_blocks_sorted (l : list Fitz.Block) :
  StronglySorted above (sort_blocks l).
Proof.
  induction l as [|b l IH]; [constructor|].
  unfold sort_blocks in *. simpl. by apply insert_block_sorted.
Qed.

Lemma filter_insert_block (q : Q) (b : Fitz.Block) (l : list Fitz.Block) :
  filter (at_height q) (insert_block b l) = filter (at_height q) (b :: l).
Proof.
  induction l as [|c l IH]; [done|]. simpl.
  destruct (Qltb (Fitz.b_y0 c) (Fitz.b_y0 b)) eqn:Hlt; [|done].
  rewrite (filter_cons _ c), IH, !(filter_cons _ b), (filter_cons _ c).
  destruct (decide (at_height q c)) as [Hc|Hc],
           (decide (at_height q b)) as [Hb|Hb]; try done.
  exfalso. apply Qltb_lt in Hlt.
  unfold at_height in *. apply Qeq_bool_iff in Hc, Hb.
  rewrite Hc, Hb in Hlt. by apply Qlt_irrefl in Hlt.
Qed.

Lemma sort_blocks_stable (q : Q) (l : list Fitz.Block) :
  filter (at_height q) (sort_blocks l) = filter (at_height q) l.
Proof.
  induction l as [|b l IH]; [done|].
  unfold sort_blocks in *. simpl.
  by rewrite filter_insert_block, !(filter_cons _ b), IH.
Qed.

Lemma StronglySorted_filter {A} (R : relation A) (P : A → Prop)
    `{!∀ x, Decision (P x)} (l : list A) :
  StronglySorted R l → StronglySorted R (filter P l).
Proof.
  induction 1 as [|x l Hs IH Hx]; [constructor|].
  rewrite filter_cons. destruct (decide (P x)); [|done].
  constructor; [done|].
  apply Forall_forall. intros y [_ Hy]%list_elem_of_filter.
  rewrite Forall_forall in Hx. by apply Hx.
Qed.

(** X14. Free text is written from top to bottom on every page. The
    blocks are sorted by their top coordinate, blocks with the same top
    coordinate keep the order in which the page lists them, and the
    blocks kept on a page with tables are a subsequence of that order. *)
Theorem free_text_reading_order (page : Fitz.Page) :
  StronglySorted above (sort_blocks (Fitz.get_text_blocks page))
  ∧ (∀ q, filter (at_height q) (sort_blocks (Fitz.get_text_blocks page))
          = filter (at_height q) (Fitz.get_text_blocks page))
  ∧ (∀ kept, kept_blocks page = Ok kept →
       StronglySorted above kept
       ∧ kept `sublist_of` sort_blocks (Fitz.get_text_blocks page)).
Proof.
  split; [apply sort_blocks_sorted|].
  split; [intros q; apply sort_blocks_stable|].
  intros kept (rects & _ & ->)%kept_blocks_Ok. split.
  - apply StronglySorted_filter, sort_blocks_sorted.
  - apply sublist_filter.
Qed.

(** X15. Where the conversion of a page for which [with_tables] holds no
    table returns, the page is written as plain text: between the page
    heading and the page break comes one paragraph per block of the
    page, holding the text of the block, each block once, top to bottom;
    no block is left out, even where PyMuPDF detects a table region, and
    no attribute of a detected table is read. *)
Theorem page_to_docx_plain (w : World) (n_pages page_num : nat)
    (page : Fitz.Page) (with_tables : option (list Pandas.DataFrame))
    (table_style : string) (ops : list DocOp) :
  tables_of_page with_tables page_num = [] →
  page_to_docx w n_pages page_num page with_tables table_style = Ok ops →
  ∃ written : list Fitz.Block,
    ops = [Heading ("Page " +:+ pretty (page_num + 1)%nat) 1]
          ++ ((λ block, Paragraph (Fitz.b_text block) false None) <$> written)
          ++ (if Nat.ltb page_num (n_pages - 1) then [PageBreak] else [])
    ∧ written ≡ₚ Fitz.get_text_blocks page
    ∧ StronglySorted above written.
Proof.
  intros Hnone (body & -> & Hbody)%page_to_docx_Ok.
  rewrite Hnone in Hbody. cbn [truthy] in Hbody. subst body.
  exists (sort_blocks (Fitz.get_text_blocks page)).
  split; [done|]. split; [apply sort_blocks_perm|apply sort_blocks_sorted].
Qed.

Lemma page_to_docx_plain_witness :
  ∃ written : list Fitz.Block,
    [Heading "Page 1" 1;
     Paragraph "Stock" false None;
     Paragraph "Item Qty" false None;
     Paragraph "Page 1 of 1" false None]
    = [Heading ("Page " +:+ pretty (0 + 1)%nat) 1]
      ++ ((λ block, Paragraph (Fitz.b_text block) false None) <$> written)
      ++ (if Nat.ltb 0 (1 - 1) then [PageBreak] else [])
    ∧ written ≡ₚ Fitz.get_text_blocks detected_page
    ∧ StronglySorted above written.
Proof.
  apply (page_to_docx_plain (demo_world [detected_page] false false) 1 0
           detected_page None "grid").
  - reflexivity.
  - vm_compute. reflexivity.
Defined.

(** X24. Free text is removed only where PyMuPDF itself detects a table
    region: on a page where [find_tables] finds nothing, every block is
    kept, also when tables from another extractor are written for that
    page. *)
Theorem kept_blocks_without_regions (page : Fitz.Page) :
  Fitz.find_tables page = [] →
  kept_blocks page = Ok (sort_blocks (Fitz.get_text_blocks page))
  ∧ sort_blocks (Fitz.get_text_blocks page) ≡ₚ Fitz.get_text_blocks page.
Proof.
  intros Hnone. split; [|apply sort_blocks_perm].
  unfold kept_blocks, table_positions. rewrite Hnone. cbn [map_exc bind].
  f_equal. by apply filter_all.
Qed.

Lemma kept_blocks_without_regions_witness :
  kept_blocks {| Fitz.get_text := codepoints "Stock";
                 Fitz.get_text_blocks := [footer_block; inner_block];
                 Fitz.find_tables := [] |}
  = Ok (sort_blocks [footer_block; inner_block])
  ∧ sort_blocks [footer_block; inner_block] ≡ₚ [footer_block; inner_block].
Proof.
  apply (kept_blocks_without_regions
           {| Fitz.get_text := codepoints "Stock";
              Fitz.get_text_blocks := [footer_block; inner_block];
              Fitz.find_tables := [] |}).
  reflexivity.
Defined.

(** ** Tables in the document *)

Lemma elem_of_concat {A} (x : A) (ls : list (list A)) :
  x ∈ concat ls ↔ ∃ l, l ∈ ls ∧ x ∈ l.
Proof.
  rewrite list_elem_of_In, in_concat.
  split; intros (l & Hl & Hx); exists l; by rewrite !list_elem_of_In in *.
Qed.

Lemma elem_of_tables_of_page (with_tables : option (list Pandas.DataFrame))
    (page_num : nat) (t : Pandas.DataFrame) :
  t ∈ tables_of_page with_tables page_num
  ↔ ∃ l, with_tables = Some l ∧ t ∈ l
         ∧ Pandas.attrs t !! "page" = Some (Z.of_nat page_num).
Proof.
  unfold tables_of_page. destruct with_tables as [[|u l]|].
  - split; [by intros ?%elem_of_nil|].
    intros (l & [= <-] & Ht & _). by apply elem_of_nil in Ht.
  - rewrite list_elem_of_filter. split.
    + intros [Htag Ht]. by exists (u :: l).
    + by intros (l' & [= <-] & Ht & Htag).
  - split; [by intros ?%elem_of_nil|]. by intros (l & [=] & _).
Qed.

Lemma truthy_elem_of {A} (l : list A) (x : A) : x ∈ l → truthy l = true.
Proof. destruct l; [by intros ?%elem_of_nil|done]. Qed.

(** The tables written on a page whose conversion returns. *)
Lemma table_op_in_page (w : World) (n_pages page_num : nat) (page : Fitz.Page)
    (with_tables : option (list Pandas.DataFrame)) (table_style sty : string)
    (ops : list DocOp) (rows : list (list DocxCell)) :
  page_to_docx w n_pages page_num page with_tables table_style = Ok ops →
  TableOp rows sty ∈ ops
  ↔ sty = get_table_style_name table_style
    ∧ ∃ t, t ∈ tables_of_page with_tables page_num
           ∧ add_table_from_dataframe t true = Ok (Some rows).
Proof.
  intros (body & -> & Hbody)%page_to_docx_Ok.
  assert (∀ l : list Fitz.Block,
            TableOp rows sty
            ∉ ((λ block, Paragraph (Fitz.b_text block) false None) <$> l))
    as Hfree.
  { intros l (b & [=] & _)%list_elem_of_fmap. }
  rewrite !elem_of_app. split.
  - intros [Hh|[Hmid|Hbr]].
    + apply list_elem_of_singleton in Hh. discriminate Hh.
    + destruct (truthy (tables_of_page with_tables page_num)).
      * destruct Hbody as (kept & tables & _ & Hwritten & ->).
        apply elem_of_app in Hmid as [Hmid|Hmid]; [by apply Hfree in Hmid|].
        apply elem_of_concat in Hmid as (written & Hin & Hop).
        apply list_elem_of_lookup in Hin as [i Hi].
        destruct (Forall2_lookup_r _ _ _ _ _ Hwritten Hi) as (t & Ht & Hwr).
        apply write_table_Ok in Hwr as [[_ ->]|(rows' & _ & Hadd & ->)].
        -- repeat (apply elem_of_cons in Hop as [Hop|Hop];
                   [discriminate Hop|]).
           by apply elem_of_nil in Hop.
        -- apply elem_of_cons in Hop as [Hop|Hop]; [discriminate Hop|].
           apply elem_of_cons in Hop as [Hop|Hop].
           ++ injection Hop as -> ->. split; [done|]. exists t.
              split; [by eapply list_elem_of_lookup_2|done].
           ++ apply elem_of_cons in Hop as [Hop|Hop]; [discriminate Hop|].
              by apply elem_of_nil in Hop.
      * subst body. by apply Hfree in Hmid.
    + destruct (Nat.ltb _ _); [|by apply elem_of_nil in Hbr].
      apply list_elem_of_singleton in Hbr. discriminate Hbr.
  - intros (-> & t & Ht & Hadd). right. left.
    rewrite (truthy_elem_of _ _ Ht) in Hbody.
    destruct Hbody as (kept & tables & _ & Hwritten & ->).
    apply elem_of_app. right.
    apply list_elem_of_lookup in Ht as [i Hi].
    destruct (Forall2_lookup_l _ _ _ _ _ Hwritten Hi) as (written & Hwr & Hrun).
    apply elem_of_concat. exists written.
    split; [by eapply list_elem_of_lookup_2|].
    apply write_table_Ok in Hrun as [[Hz ->]|(rows' & _ & Hadd' & ->)].
    + apply add_table_from_dataframe_Some in Hadd.
      by apply Hadd in Hz.
    + rewrite Hadd in Hadd'. injection Hadd' as <-. right. left.
Qed.

Lemma pages_to_docx_lookup (w : World) (n_pages page_num : nat)
    (pages : list Fitz.Page) (with_tables : option (list Pandas.DataFrame))
    (table_style : string) (ops : list DocOp) (i : nat) (page : Fitz.Page) :
  pages_to_docx w n_pages page_num pages with_tables table_style = Ok ops →
  pages !! i = Some page →
  ∃ ops_i, page_to_docx w n_pages (page_num + i) page with_tables table_style
           = Ok ops_i
           ∧ ∀ op, op ∈ ops_i → op ∈ ops.
Proof.
  revert page_num ops i. induction pages as [|p pages IH];
    intros page_num ops i; [done|]. simpl.
  intros (ops0 & Hp & (rest & Hrest & [= <-])%bind_Ok)%bind_Ok Hi.
  destruct i as [|i].
  - injection Hi as <-. rewrite Nat.add_0_r. exists ops0.
    split; [done|]. intros op Hop. apply elem_of_app. by left.
  - destruct (IH _ _ _ Hrest Hi) as (ops_i & Hrun & Hsub).
    replace (page_num + S i)%nat with (S page_num + i)%nat by lia.
    exists ops_i. split; [done|].
    intros op Hop. apply elem_of_app. right. by apply Hsub.
Qed.

Lemma pages_to_docx_elem (w : World) (n_pages page_num : nat)
    (pages : list Fitz.Page) (with_tables : option (list Pandas.DataFrame))
    (table_style : string) (ops : list DocOp) (op : DocOp) :
  pages_to_docx w n_pages page_num pages with_tables table_style = Ok ops →
  op ∈ ops →
  ∃ i page ops_i,
    pages !! i = Some page
    ∧ page_to_docx w n_pages (page_num + i) page with_tables table_style
      = Ok ops_i
    ∧ op ∈ ops_i.
Proof.
  revert page_num ops. induction pages as [|p pages IH]; intros page_num ops;
    simpl.
  { intros [= <-]. by intros ?%elem_of_nil. }
  intros (ops0 & Hp & (rest & Hrest & [= <-])%bind_Ok)%bind_Ok.
  intros [Hop|Hop]%elem_of_app.
  - exists 0%nat, p, ops0. by rewrite Nat.add_0_r.
  - destruct (IH _ _ Hrest Hop) as (i & page & ops_i & Hi & Hrun & Hin).
    exists (S i), page, ops_i.
    replace (page_num + S i)%nat with (S page_num + i)%nat by lia. done.
Qed.

(** X16. Where [pdf_to_docx] returns, a table is in the document exactly
    when it is made of the cells of a frame of [with_tables] whose page
    tag is a page of the document, and its style is then the one
    [get_table_style_name] gives; a frame without page tag, or tagged
    with a page the document does not have, is written nowhere, and so
    is a frame without columns. *)
Theorem pdf_to_docx_tables (w : World) (pdf_path : string)
    (with_tables : option (list Pandas.DataFrame)) (table_style sty : string)
    (doc : Fitz.Document) (ops : list DocOp) (rows : list (list DocxCell)) :
  fitz_open w pdf_path = Ok doc →
  pdf_to_docx w pdf_path with_tables table_style = Ok ops →
  TableOp rows sty ∈ ops
  ↔ sty = get_table_style_name table_style
    ∧ ∃ l t page_num,
        with_tables = Some l ∧ t ∈ l
        ∧ (page_num < length doc)%nat
        ∧ Pandas.attrs t !! "page" = Some (Z.of_nat page_num)
        ∧ Pandas.columns t ≠ []
        ∧ add_table_from_dataframe t true = Ok (Some rows).
Proof.
  intros Hopen. unfold pdf_to_docx. rewrite Hopen. cbn [bind]. intros Hrun.
  split.
  - intros (i & page & ops_i & Hi & Hpage & Hop)%(pages_to_docx_elem _ _ _ _ _ _ _ _ Hrun).
    apply (table_op_in_page _ _ _ _ _ _ _ _ _ Hpage) in Hop
      as (-> & t & Ht & Hadd).
    split; [done|].
    apply elem_of_tables_of_page in Ht as (l & -> & Ht & Htag).
    exists l, t, i. repeat split; try done.
    + by eapply lookup_lt_Some.
    + intros Hcols. apply add_table_from_dataframe_Some in Hadd.
      assert (Some rows = None) as [=]. apply Hadd. by rewrite Hcols.
  - intros (-> & l & t & i & -> & Ht & Hi & Htag & _ & Hadd).
    destruct (lookup_lt_is_Some_2 doc i Hi) as [page Hpage].
    destruct (pages_to_docx_lookup _ _ _ _ _ _ _ _ _ Hrun Hpage)
      as (ops_i & Hrun_i & Hsub).
    apply Hsub. apply (table_op_in_page _ _ _ _ _ _ _ _ _ Hrun_i).
    split; [done|]. exists t. split; [|done].
    apply elem_of_tables_of_page. by exists l.
Qed.

Lemma pdf_to_docx_tables_witness :
  TableOp [[{| cell_text := "Item"; cell_header := true |};
            {| cell_text := "Quantity"; cell_header := true |}];
           [{| cell_text := "pen"; cell_header := false |};
            {| cell_text := "2"; cell_header := false |}]] "Table Grid"
  ∈ [Heading "Page 1" 1;
     Paragraph "Stock" false None;
     Paragraph "Item Qty" false None;
     Paragraph "Page 1 of 1" false None;
     Paragraph "Table" true (Some 12%nat);
     TableOp [[{| cell_text := "Item"; cell_header := true |};
               {| cell_text := "Quantity"; cell_header := true |}];
              [{| cell_text := "pen"; cell_header := false |};
               {| cell_text := "2"; cell_header := false |}]] "Table Grid";
     Paragraph "" false None].
Proof.
  apply (pdf_to_docx_tables (tabula_world [plain_page] (Ok ())) "doc.pdf"
           (Some [tabula_item_table_page0]) "grid" "Table Grid" [plain_page]
           [Heading "Page 1" 1;
            Paragraph "Stock" false None;
            Paragraph "Item Qty" false None;
            Paragraph "Page 1 of 1" false None;
            Paragraph "Table" true (Some 12%nat);
            TableOp [[{| cell_text := "Item"; cell_header := true |};
                      {| cell_text := "Quantity"; cell_header := true |}];
                     [{| cell_text := "pen"; cell_header := false |};
                      {| cell_text := "2"; cell_header := false |}]]
              "Table Grid";
            Paragraph "" false None]).
  - reflexivity.
  - vm_compute. reflexivity.
  - split; [reflexivity|].
    exists [tabula_item_table_page0], tabula_item_table_page0, 0%nat.
    split; [reflexivity|]. split; [left|]. split; [simpl; lia|].
    split; [reflexivity|]. split; [discriminate|reflexivity].
Defined.

Lemma extract_all_tables_tagged (w : World) (pdf_path : string)
    (doc : Fitz.Document) (tables : list Pandas.DataFrame)
    (t : Pandas.DataFrame) :
  fitz_open w pdf_path = Ok doc →
  extract_all_tables w pdf_path None = Ok tables → t ∈ tables →
  ∃ i, (i < length doc)%nat
       ∧ Pandas.attrs t !! "page" = Some (Z.of_nat i).
Proof.
  intros Hopen Hrun Ht. unfold extract_all_tables in Hrun.
  rewrite Hopen in Hrun. cbn [bind] in Hrun.
  destruct (for_each_extract_page_tags _ _ _ _ _ _ _ Hrun Ht)
    as [Hnil|(p & Hp & Hlt & Htag)]; [by apply elem_of_nil in Hnil|].
  simpl in Hp. apply list_elem_of_fmap in Hp as (i & -> & Hi).
  exists i. split; [lia|]. rewrite Htag. apply lookup_singleton_eq.
Qed.

Lemma for_each_extract_page_nonempty (w : World) (pdf_path : string)
    (doc : Fitz.Document) (l : list Z) (tables : list Pandas.DataFrame)
    (t : Pandas.DataFrame) :
  for_each (extract_page w pdf_path doc) l [] = Ok tables → t ∈ tables →
  Pandas.empty t = false.
Proof.
  revert tables. induction l as [|p l IH]; intros tables; simpl.
  { intros [= <-] Ht. by apply elem_of_nil in Ht. }
  intros (r & Hpage & Hrest)%bind_Ok.
  rewrite for_each_extract_page_acc in Hrest.
  apply bind_Ok in Hrest as (r' & Hrest & [= <-]).
  intros [Ht|Ht]%elem_of_app; [|by apply (IH r')].
  destruct (extract_page_result _ _ _ _ _ Hpage) as [->|(page_tables & ->)].
  { by apply elem_of_nil in Ht. }
  apply list_elem_of_fmap in Ht as (u & -> & Hu).
  rewrite empty_set_attrs. apply (candidates_nonempty page_tables).
  eapply sublist_subseteq; [apply combine_tables_sublist|done].
Qed.

(** On a page whose conversion returns, every frame of the page that has
    a column has been written as a table, in a style the document has. *)
Lemma page_to_docx_writes (w : World) (n_pages page_num : nat)
    (page : Fitz.Page) (with_tables : option (list Pandas.DataFrame))
    (table_style : string) (ops : list DocOp) (t : Pandas.DataFrame) :
  page_to_docx w n_pages page_num page with_tables table_style = Ok ops →
  t ∈ tables_of_page with_tables page_num →
  Pandas.columns t ≠ [] →
  docx_styles w (get_table_style_name table_style) = true
  ∧ ∃ rows, add_table_from_dataframe t true = Ok (Some rows)
            ∧ TableOp rows (get_table_style_name table_style) ∈ ops.
Proof.
  intros Hrun Ht Hcols.
  pose proof Hrun as (body & _ & Hbody)%page_to_docx_Ok.
  rewrite (truthy_elem_of _ _ Ht) in Hbody.
  destruct Hbody as (kept & tables & _ & Hwritten & _).
  pose proof Ht as [i Hi]%list_elem_of_lookup.
  destruct (Forall2_lookup_l _ _ _ _ _ Hwritten Hi) as (written & _ & Hwr).
  apply write_table_Ok in Hwr as [[Hz _]|(rows & Hsty & Hadd & _)].
  { destruct (Pandas.columns t); [done|discriminate Hz]. }
  split; [done|]. exists rows. split; [done|].
  apply (table_op_in_page _ _ _ _ _ _ _ _ _ Hrun). split; [done|]. by exists t.
Qed.

(** X17. Where [extract_all_tables] on all pages of a file and then
    [pdf_to_docx] on the same file with its result both return, every
    table found has reached the document: its cells, the column labels
    first, are a table of the document, in the style that
    [get_table_style_name] gives. *)
Theorem extract_all_tables_then_pdf_to_docx (w : World) (pdf_path : string)
    (tables : list Pandas.DataFrame) (table_style : string)
    (ops : list DocOp) :
  extract_all_tables w pdf_path None = Ok tables →
  pdf_to_docx w pdf_path (Some tables) table_style = Ok ops →
  ∀ t, t ∈ tables →
    ∃ rows, add_table_from_dataframe t true = Ok (Some rows)
            ∧ TableOp rows (get_table_style_name table_style) ∈ ops.
Proof.
  intros Hextract Hrun t Ht.
  assert (∃ doc, fitz_open w pdf_path = Ok doc) as [doc Hopen].
  { unfold extract_all_tables in Hextract.
    destruct (fitz_open w pdf_path) as [doc|e]; [eauto|done]. }
  destruct (extract_all_tables_tagged _ _ _ _ _ Hopen Hextract Ht)
    as (i & Hi & Htag).
  assert (Pandas.columns t ≠ []) as Hcols.
  { unfold extract_all_tables in Hextract. rewrite Hopen in Hextract.
    cbn [bind] in Hextract.
    pose proof (for_each_extract_page_nonempty _ _ _ _ _ _ Hextract Ht) as He.
    intros Hnil. unfold Pandas.empty, Pandas.shape in He.
    rewrite Hnil in He. simpl in He. by rewrite orb_true_r in He. }
  unfold pdf_to_docx in Hrun. rewrite Hopen in Hrun. cbn [bind] in Hrun.
  destruct (lookup_lt_is_Some_2 doc i Hi) as [page Hpage].
  destruct (pages_to_docx_lookup _ _ _ _ _ _ _ _ _ Hrun Hpage)
    as (ops_i & Hrun_i & Hsub).
  destruct (page_to_docx_writes _ _ _ _ _ _ _ t Hrun_i)
    as (_ & rows & Hadd & Hop); [|done|].
  { apply elem_of_tables_of_page. by exists tables. }
  exists rows. split; [done|]. by apply Hsub.
Qed.

Lemma extract_all_tables_then_pdf_to_docx_witness :
  ∃ rows, add_table_from_dataframe tabula_item_table_page0 true
          = Ok (Some rows)
          ∧ TableOp rows (get_table_style_name "fancy")
            ∈ [Heading "Page 1" 1;
               Paragraph "Stock" false None;
               Paragraph "Item Qty" false None;
               Paragraph "Page 1 of 1" false None;
               Paragraph "Table" true (Some 12%nat);
               TableOp [[{| cell_text := "Item"; cell_header := true |};
                         {| cell_text := "Quantity"; cell_header := true |}];
                        [{| cell_text := "pen"; cell_header := false |};
                         {| cell_text := "2"; cell_header := false |}]]
                 "Medium Shading 1 Accent 1";
               Paragraph "" false None].
Proof.
  apply (extract_all_tables_then_pdf_to_docx
           (tabula_world [plain_page] (Ok ())) "doc.pdf"
           [tabula_item_table_page0] "fancy").
  - vm_compute. reflexivity.
  - vm_compute. reflexivity.
  - left.
Defined.

(** X6. A page that has tables to write and on which PyMuPDF detects a
    table region whose object has no [rect] stops the conversion: the
    attribute is read before any free text of the page is written, and
    nothing catches the exception. *)
Theorem pdf_to_docx_detected_region (w : World) (pdf_path : string)
    (with_tables : option (list Pandas.DataFrame)) (table_style : string)
    (doc : Fitz.Document) (page_num : nat) (page : Fitz.Page)
    (table : Fitz.Table) :
  fitz_open w pdf_path = Ok doc →
  doc !! page_num = Some page →
  tables_of_page with_tables page_num ≠ [] →
  table ∈ Fitz.find_tables page →
  raises (Fitz.rect table) →
  raises (pdf_to_docx w pdf_path with_tables table_style).
Proof.
  intros Hopen Hpage Htables Htable [e He].
  destruct (pdf_to_docx w pdf_path with_tables table_style) as [ops|e']
    eqn:Hrun; [|by exists e'].
  exfalso. unfold pdf_to_docx in Hrun. rewrite Hopen in Hrun.
  cbn [bind] in Hrun.
  destruct (pages_to_docx_lookup _ _ _ _ _ _ _ _ _ Hrun Hpage)
    as (ops_i & (body & _ & Hbody)%page_to_docx_Ok & _).
  cbn [Nat.add] in Hbody.
  destruct (tables_of_page with_tables page_num) as [|t ts]; [done|].
  cbn [truthy] in Hbody. destruct Hbody as (kept & tables & (rects & Hrects & _)%kept_blocks_Ok & _).
  apply list_elem_of_lookup in Htable as [i Hi].
  destruct (Forall2_lookup_l _ _ _ _ _ Hrects Hi) as (r & _ & Hr).
  congruence.
Qed.

Lemma pdf_to_docx_detected_region_witness :
  raises (pdf_to_docx (tabula_world [detected_page] (Ok ())) "doc.pdf"
            (Some [tabula_item_table_page0]) "grid").
Proof.
  apply (pdf_to_docx_detected_region (tabula_world [detected_page] (Ok ()))
           "doc.pdf" (Some [tabula_item_table_page0]) "grid" [detected_page]
           0 detected_page (detected_table 2)).
  - reflexivity.
  - reflexivity.
  - discriminate.
  - left.
  - exists AttributeError. reflexivity.
Defined.

(** X21. A table style that the document does not have stops the
    conversion as soon as a frame with a column is to be written on a
    page of the document: [table.style = style] raises, and nothing
    catches it. The option ['basic'] names the style ['Table Normal'],
    which the template of python-docx does not have. *)
Theorem pdf_to_docx_missing_style (w : World) (pdf_path : string)
    (l : list Pandas.DataFrame) (table_style : string) (doc : Fitz.Document)
    (t : Pandas.DataFrame) (page_num : nat) :
  fitz_open w pdf_path = Ok doc →
  docx_styles w (get_table_style_name table_style) = false →
  t ∈ l →
  (page_num < length doc)%nat →
  Pandas.attrs t !! "page" = Some (Z.of_nat page_num) →
  Pandas.columns t ≠ [] →
  raises (pdf_to_docx w pdf_path (Some l) table_style).
Proof.
  intros Hopen Hsty Ht Hi Htag Hcols.
  destruct (pdf_to_docx w pdf_path (Some l) table_style) as [ops|e]
    eqn:Hrun; [|by exists e].
  exfalso. unfold pdf_to_docx in Hrun. rewrite Hopen in Hrun.
  cbn [bind] in Hrun.
  destruct (lookup_lt_is_Some_2 doc page_num Hi) as [page Hpage].
  destruct (pages_to_docx_lookup _ _ _ _ _ _ _ _ _ Hrun Hpage)
    as (ops_i & Hrun_i & _).
  destruct (page_to_docx_writes _ _ _ _ _ _ _ t Hrun_i) as [Hsty' _];
    [|done|congruence].
  apply elem_of_tables_of_page. by exists l.
Qed.

Lemma pdf_to_docx_missing_style_witness :
  get_table_style_name "basic" = "Table Normal"
  ∧ raises (pdf_to_docx (tabula_world [plain_page] (Ok ())) "doc.pdf"
              (Some [tabula_item_table_page0]) "basic").
Proof.
  split; [reflexivity|].
  apply (pdf_to_docx_missing_style (tabula_world [plain_page] (Ok ()))
           "doc.pdf" [tabula_item_table_page0] "basic" [plain_page]
           tabula_item_table_page0 0).
  - reflexivity.
  - reflexivity.
  - left.
  - simpl. lia.
  - reflexivity.
  - discriminate.
Defined.

(** The two failures, run: the exception that comes out. *)
Example pdf_to_docx_failures :
  pdf_to_docx (tabula_world [detected_page] (Ok ())) "doc.pdf"
    (Some [tabula_item_table_page0]) "grid" = Raise AttributeError
  ∧ pdf_to_docx (tabula_world [plain_page] (Ok ())) "doc.pdf"
      (Some [tabula_item_table_page0]) "basic" = Raise KeyError.
Proof. split; vm_compute; reflexivity. Qed.

(** ** Headings and page breaks *)

Lemma sum_list_below (m k n : nat) :
  sum_list ((λ i, if Nat.ltb i m then 1%nat else 0%nat) <$> seq k n)
  = (Nat.min (k + n) m - Nat.min k m)%nat.
Proof.
  revert k. induction n as [|n IH]; intros k; simpl.
  { rewrite Nat.add_0_r. lia. }
  rewrite IH. destruct (Nat.ltb_spec k m); lia.
Qed.

Lemma page_to_docx_counts (w : World) (n_pages page_num : nat)
    (page : Fitz.Page) (with_tables : option (list Pandas.DataFrame))
    (table_style : string) (ops : list DocOp) :
  page_to_docx w n_pages page_num page with_tables table_style = Ok ops →
  length (filter (λ op, is_heading op = true) ops) = 1%nat
  ∧ length (filter (λ op, is_page_break op = true) ops)
    = if Nat.ltb page_num (n_pages - 1) then 1%nat else 0%nat.
Proof.
  intros (body & -> & Hbody)%page_to_docx_Ok.
  assert (∀ op, op ∈ body → is_heading op = false ∧ is_page_break op = false)
    as Hmid.
  { intros op.
    assert (∀ l : list Fitz.Block,
              op ∈ ((λ block, Paragraph (Fitz.b_text block) false None) <$> l) →
              is_heading op = false ∧ is_page_break op = false) as Hfree.
    { by intros l (b & -> & _)%list_elem_of_fmap. }
    destruct (truthy _); [|subst body; apply Hfree].
    destruct Hbody as (kept & tables & _ & Hwritten & ->).
    intros [Hop|Hop]%elem_of_app; [by eapply Hfree|].
    apply elem_of_concat in Hop as (written & Hin & Hop).
    apply list_elem_of_lookup in Hin as [i Hi].
    destruct (Forall2_lookup_r _ _ _ _ _ Hwritten Hi) as (t & _ & Hwr).
    apply write_table_Ok in Hwr as [[_ ->]|(rows & _ & _ & ->)];
      repeat (apply elem_of_cons in Hop as [->|Hop]; [done|]);
      by apply elem_of_nil in Hop. }
  rewrite !filter_app, !length_app.
  rewrite (filter_none (λ op, is_heading op = true) body)
    by (intros op [Hh _]%Hmid; congruence).
  rewrite (filter_none (λ op, is_page_break op = true) body)
    by (intros op [_ Hb]%Hmid; congruence).
  split; by destruct (Nat.ltb page_num (n_pages - 1)).
Qed.

Lemma pages_to_docx_counts (w : World) (n_pages page_num : nat)
    (pages : list Fitz.Page) (with_tables : option (list Pandas.DataFrame))
    (table_style : string) (ops : list DocOp) :
  pages_to_docx w n_pages page_num pages with_tables table_style = Ok ops →
  length (filter (λ op, is_heading op = true) ops) = length pages
  ∧ length (filter (λ op, is_page_break op = true) ops)
    = sum_list ((λ i, if Nat.ltb i (n_pages - 1) then 1%nat else 0%nat)
                  <$> seq page_num (length pages)).
Proof.
  revert page_num ops. induction pages as [|p pages IH]; intros page_num ops;
    simpl.
  { by intros [= <-]. }
  intros (ops0 & Hp & (rest & Hrest & [= <-])%bind_Ok)%bind_Ok.
  destruct (page_to_docx_counts _ _ _ _ _ _ _ Hp) as [Hh Hb].
  destruct (IH _ _ Hrest) as [Hhs Hbs].
  rewrite !filter_app, !length_app, Hh, Hb, Hhs, Hbs. done.
Qed.

(** X18. The document has one page heading per page of the file and one
    page break between consecutive pages: as many headings as pages, one
    page break less, whatever the tables. *)
Theorem pdf_to_docx_headings_and_breaks (w : World) (pdf_path : string)
    (with_tables : option (list Pandas.DataFrame)) (table_style : string)
    (doc : Fitz.Document) (ops : list DocOp) :
  fitz_open w pdf_path = Ok doc →
  pdf_to_docx w pdf_path with_tables table_style = Ok ops →
  length (filter (λ op, is_heading op = true) ops) = length doc
  ∧ length (filter (λ op, is_page_break op = true) ops) = (length doc - 1)%nat.
Proof.
  intros Hopen. unfold pdf_to_docx. rewrite Hopen. cbn [bind].
  intros [Hh Hb]%pages_to_docx_counts. split; [done|].
  rewrite Hb, sum_list_below. lia.
Qed.

Lemma pdf_to_docx_headings_and_breaks_witness :
  length (filter (λ op, is_heading op = true)
            [Heading "Page 1" 1;
             Paragraph "Stock" false None;
             Paragraph "Item Qty" false None;
             Paragraph "Page 1 of 1" false None])
  = length text_doc.
Proof.
  apply (pdf_to_docx_headings_and_breaks (demo_world text_doc false false)
           "doc.pdf" None "grid" text_doc
           [Heading "Page 1" 1;
            Paragraph "Stock" false None;
            Paragraph "Item Qty" false None;
            Paragraph "Page 1 of 1" false None]).
  - reflexivity.
  - vm_compute. reflexivity.
Defined.

(** ** File names of the exported tables *)

Lemma split_at_char (c : ascii) (a b r1 r2 : string) :
  contains c a = false → contains c b = false →
  a +:+ String c r1 = b +:+ String c r2 → a = b ∧ r1 = r2.
Proof.
  revert b. induction a as [|x a IH]; intros [|y b]; simpl.
  - by intros _ _ [= ->].
  - intros _ [Hy _]%orb_false_iff [= <- _].
    by rewrite bool_decide_eq_false in Hy.
  - intros [Hx _]%orb_false_iff _ [= -> _].
    by rewrite bool_decide_eq_false in Hx.
  - intros [_ Ha]%orb_false_iff [_ Hb]%orb_false_iff [= -> Heq].
    destruct (IH b Ha Hb Heq) as [-> ->]. done.
Qed.

Lemma pretty_N_go_contains (c : ascii) (x : N) (s : string) :
  (∀ d, pretty_N_char d ≠ c) → contains c s = false →
  contains c (pretty_N_go x s) = false.
Proof.
  intros Hc. revert s. induction (N.lt_wf_0 x) as [x _ IH]; intros s Hs.
  destruct (decide (x = 0)%N) as [->|Hx]; [by rewrite pretty_N_go_0|].
  rewrite pretty_N_go_step by lia. apply IH.
  - apply N.div_lt; lia.
  - simpl. rewrite Hs, orb_false_r. apply bool_decide_eq_false, Hc.
Qed.

Lemma pretty_N_contains (c : ascii) (x : N) :
  (∀ d, pretty_N_char d ≠ c) → "0"%char ≠ c →
  contains c (pretty x) = false.
Proof.
  intros Hc H0. unfold pretty, pretty_N. case_decide.
  - simpl. by rewrite bool_decide_eq_false_2.
  - by apply pretty_N_go_contains.
Qed.

Lemma pretty_N_char_ne (c : ascii) :
  c = "_"%char ∨ c = "."%char → ∀ d, pretty_N_char d ≠ c.
Proof.
  intros [-> | ->] d; unfold pretty_N_char; by repeat case_match.
Qed.

Lemma pretty_nat_contains (c : ascii) (n : nat) :
  c = "_"%char ∨ c = "."%char → contains c (pretty n) = false.
Proof.
  intros Hc. apply pretty_N_contains; [by apply pretty_N_char_ne|].
  by destruct Hc as [-> | ->].
Qed.

Lemma pretty_Z_contains (c : ascii) (z : Z) :
  c = "_"%char ∨ c = "."%char → contains c (pretty z) = false.
Proof.
  intros Hc.
  assert (∀ p : positive, contains c (pretty p) = false) as Hpos.
  { intros p. apply (pretty_N_contains c (Npos p));
      [by apply pretty_N_char_ne|by destruct Hc as [-> | ->]]. }
  destruct z as [|p|p].
  - change (pretty 0%Z) with "0". simpl. rewrite orb_false_r.
    apply bool_decide_eq_false. by destruct Hc as [-> | ->].
  - change (pretty (Z.pos p)) with (pretty p). apply Hpos.
  - change (pretty (Z.neg p)) with (String "-"%char (pretty p)).
    cbn [contains]. rewrite (Hpos p), orb_false_r.
    apply bool_decide_eq_false. by destruct Hc as [-> | ->].
Qed.

Lemma csv_name_inj (base_filename : string) (i j : nat)
    (ti tj : Pandas.DataFrame) :
  csv_name base_filename i ti = csv_name base_filename j tj → i = j.
Proof.
  unfold csv_name. intros Heq.
  apply (inj (String.app base_filename)) in Heq.
  injection Heq as Heq.
  apply split_at_char in Heq as [_ Heq];
    [|apply pretty_Z_contains; by left..].
  injection Heq as Heq.
  change ".csv" with (String "."%char "csv") in Heq.
  apply split_at_char in Heq as [Heq _];
    [|apply pretty_nat_contains; by right..].
  apply (inj pretty) in Heq. lia.
Qed.

(** X19. No two tables of one export are given the same file name,
    whatever their page tags; so, [os.path.join] keeping different names
    apart within one directory, every table is written to a file of its
    own and none overwrites another. *)
Theorem export_tables_to_csv_distinct_files (join : string → string → string)
    (tables : list Pandas.DataFrame) (output_dir base_filename : string) :
  (∀ a b, join output_dir a = join output_dir b → a = b) →
  NoDup (export_tables_to_csv join tables output_dir base_filename).*1
  ∧ length (export_tables_to_csv join tables output_dir base_filename)
    = length tables.
Proof.
  intros Hjoin. unfold export_tables_to_csv. split; [|apply length_imap].
  apply NoDup_alt. intros i j path.
  rewrite !list_lookup_fmap, !list_lookup_imap.
  destruct (tables !! i) as [ti|]; [|done].
  destruct (tables !! j) as [tj|]; [|done]. simpl.
  intros [= <-] [= Heq]. apply Hjoin in Heq. symmetry.
  by eapply csv_name_inj.
Qed.

Lemma export_tables_to_csv_distinct_files_witness :
  NoDup (export_tables_to_csv (λ a b, a +:+ "/" +:+ b)
           [item_table; item_table_page0; item_table] "out" "scan").*1
  ∧ length (export_tables_to_csv (λ a b, a +:+ "/" +:+ b)
              [item_table; item_table_page0; item_table] "out" "scan")
    = length [item_table; item_table_page0; item_table].
Proof.
  apply (export_tables_to_csv_distinct_files (λ a b, a +:+ "/" +:+ b)
           [item_table; item_table_page0; item_table] "out" "scan").
  intros a b Heq. apply (inj (String.app "out")) in Heq.
  by injection Heq.
Defined.

(** The export above, run: an untagged table counts as page 1. *)
Example export_tables_to_csv_names :
  (export_tables_to_csv (λ a b, a +:+ "/" +:+ b)
     [item_table; item_table_page0; item_table] "out" "scan").*1
  = ["out/scan_page1_table1.csv"; "out/scan_page1_table2.csv";
     "out/scan_page1_table3.csv"].
Proof. vm_compute. reflexivity. Qed.

(** ** Word tables *)





(** A frame with a row longer than its header cannot be written: the
    cell past the last column does not exist. *)
Example add_table_from_dataframe_ragged :
  add_table_from_dataframe (frame [txt "a"] [[txt "1"; txt "2"]]) true
  = Raise IndexError.
Proof. reflexivity. Qed.

(** ** Upload filter *)

Lemma contains_app (c : ascii) (a b : string) :
  contains c (a +:+ b) = contains c a || contains c b.
Proof.
  induction a as [|x a IH]; [done|]. simpl. by rewrite IH, orb_assoc.
Qed.

Lemma rsplit_dot_1_none (s : string) :
  contains "."%char s = false → rsplit_dot_1 s = None.
Proof.
  induction s as [|c s IH]; [done|]. simpl.
  intros [Hc Hs]%orb_false_iff. by rewrite IH, Hc.
Qed.

Lemma rsplit_dot_1_last (stem ext : string) :
  contains "."%char ext = false →
  rsplit_dot_1 (stem +:+ String "."%char ext) = Some ext.
Proof.
  intros Hext. induction stem as [|c stem IH]; simpl.
  - by rewrite rsplit_dot_1_none.
  - by rewrite IH.
Qed.

(** X22. Whether a file name is accepted depends only on what follows
    its last dot, compared without regard to case with the six allowed
    extensions; a name without a dot is refused. *)
Theorem allowed_file_last_extension (filename : string) :
  (contains "."%char filename = false → allowed_file filename = false)
  ∧ (∀ stem ext, filename = stem +:+ "." +:+ ext →
       contains "."%char ext = false →
       allowed_file filename = bool_decide (lower ext ∈ ALLOWED_EXTENSIONS)).
Proof.
  split.
  - unfold allowed_file. by intros ->.
  - intros stem ext -> Hext. unfold allowed_file.
    change ("." +:+ ext) with (String "."%char ext).
    rewrite rsplit_dot_1_last by done.
    rewrite contains_app. simpl. by rewrite orb_true_r.
Qed.

Example allowed_file_examples :
  allowed_file "scan.PDF" = true
  ∧ allowed_file "scan.tar.Jpeg" = true
  ∧ allowed_file "scan.pdf.exe" = false
  ∧ allowed_file "scan.pdf." = false
  ∧ allowed_file "pdf" = false
  ∧ allowed_file ".png" = true.
Proof. repeat split; vm_compute; reflexivity. Qed.

(** ** When table detection fails *)

Lemma for_each_Raise {A S} (body : S → A → exc S) (l : list A) (s : S)
    (e : exn) :
  for_each body l s = Raise e → ∃ a s', a ∈ l ∧ body s' a = Raise e.
Proof.
  revert s. induction l as [|a l IH]; intros s; simpl; [done|].
  destruct (body s a) as [s'|e'] eqn:Ha; simpl.
  - intros (a' & s'' & Hin & Hraise)%IH. exists a', s''.
    split; [by right|done].
  - intros [= ->]. exists a, s. split; [left|done].
Qed.

Lemma extract_tables_Raise (w : World) (sel : Extractor) (pdf_path : string)
    (page_num : Z) (e : exn) :
  extract_tables w sel pdf_path page_num = Raise e →
  sel = PyMuPDFTableExtractor.
Proof.
  destruct sel; [done| |]; simpl.
  - by destruct (camelot_extract_tables_total w pdf_path page_num) as [l ->].
  - by destruct (tabula_extract_tables_total w pdf_path page_num) as [l ->].
Qed.

Lemma is_compatible_Raise (w : World) (sel : Extractor) (pdf_path : string)
    (e : exn) :
  is_compatible w sel pdf_path = Raise e → sel = TabulaTableExtractor.
Proof.
  destruct sel; [done| |done]; simpl.
  by destruct (camelot_is_compatible_total w pdf_path) as [b ->].
Qed.

Lemma collect_page_tables_Raise (w : World) (pdf_path : string) (page_num : Z)
    (e : exn) :
  collect_page_tables w pdf_path page_num = Raise e →
  is_compatible w TabulaTableExtractor pdf_path = Raise e
  ∨ extract_tables w PyMuPDFTableExtractor pdf_path page_num = Raise e.
Proof.
  unfold collect_page_tables. rewrite get_best_extractor_cases.
  change (tabula_is_compatible w pdf_path)
    with (is_compatible w TabulaTableExtractor pdf_path).
  destruct (is_compatible w TabulaTableExtractor pdf_path) as [t|e'] eqn:Ht;
    [|intros [= ->]; by left].
  cbn [bind].
  set (sel := if compatible w pdf_path CamelotTableExtractor then _ else _).
  destruct (extract_tables w sel pdf_path page_num) as [tables|e'] eqn:Hsel.
  - cbn [bind]. destruct (truthy tables); [done|]. cbn [negb].
    intros (ex & acc & _ & Hraise)%for_each_Raise.
    unfold try_extractor in Hraise.
    destruct (is_compatible w ex pdf_path) as [c|e'] eqn:Hc.
    + cbn [bind] in Hraise. destruct c; [|done].
      destruct (extract_tables w ex pdf_path page_num) as [l|e'] eqn:Hex;
        [done|].
      injection Hraise as ->.
      pose proof (extract_tables_Raise _ _ _ _ _ Hex) as ->. by right.
    + pose proof (is_compatible_Raise _ _ _ _ Hc) as ->. congruence.
  - intros [= ->]. pose proof (extract_tables_Raise _ _ _ _ _ Hsel) as Heq.
    rewrite Heq in Hsel. by right.
Qed.

(** X23. What makes table detection fail. An exception of [fitz.open]
    comes out of [extract_all_tables] as it is. Once the document is
    open, an exception can come from two places only: the probe of
    Tabula, and the PyMuPDF adapter run on a requested page below the page
    count; requested pages from the page count on, the Camelot and Tabula
    adapters and the probe of Camelot make nothing fail. *)
Theorem extract_all_tables_failures (w : World) (pdf_path : string)
    (page_nums : option (list Z)) :
  (∀ e, fitz_open w pdf_path = Raise e →
     extract_all_tables w pdf_path page_nums = Raise e)
  ∧ (∀ e, extract_all_tables w pdf_path page_nums = Raise e →
       fitz_open w pdf_path = Raise e
       ∨ ∃ doc, fitz_open w pdf_path = Ok doc
                ∧ (is_compatible w TabulaTableExtractor pdf_path = Raise e
                   ∨ ∃ p, p ∈ requested_pages doc page_nums
                          ∧ (p < Z.of_nat (length doc))%Z
                          ∧ extract_tables w PyMuPDFTableExtractor pdf_path p
                            = Raise e)).
Proof.
  unfold extract_all_tables. split.
  - by intros e ->.
  - intros e. destruct (fitz_open w pdf_path) as [doc|e'];
      [|intros [= ->]; by left].
    cbn [bind]. intros (p & acc & Hp & Hraise)%for_each_Raise.
    right. exists doc. split; [done|].
    unfold extract_page in Hraise.
    destruct (Z.leb_spec (Z.of_nat (length doc)) p) as [Hge|Hlt]; [done|].
    destruct (collect_page_tables w pdf_path p) as [page_tables|e'] eqn:Hc;
      [done|].
    injection Hraise as ->.
    apply collect_page_tables_Raise in Hc as [Ht|Hpy]; [by left|].
    right. by exists p.
Qed.

(** A document that opens and a file that does not: detection stops at
    the detected table in the first, at [fitz.open] in the second. *)
Example extract_all_tables_failures_run :
  extract_all_tables (demo_world [detected_page] false false) "doc.pdf" None
  = Raise AttributeError
  ∧ extract_all_tables (demo_world [detected_page] false false) "missing.pdf"
      None
    = Raise (OtherError "no such file")
  ∧ extract_all_tables
      (tabula_world [plain_page] (Raise (OtherError "jpype"))) "doc.pdf" None
    = Raise (OtherError "jpype").
Proof. repeat split; vm_compute; reflexivity. Qed.
